(** * Route-handler resolution of starlite/handlers.py

    A shallow embedding of the handler classes of [starlite/handlers.py]:
    the ownership walk, the memoised resolvers, the construction of HTTP
    handlers, the signature validators and the response coercion.

    Python objects that the module treats as opaque (guards, providers,
    arbitrary values) are type variables.  Methods that assign to slots of
    [self] take the handler and return it again next to their result. *)

From Stdlib Require Import ZArith Lia DecimalString Ascii String.
From stdpp Require Import base decidable option list strings.

Open Scope Z_scope.
Open Scope string_scope.
Open Scope list_scope.

(** ** Python values used by the module *)

(** A memoised slot holds the placeholder class [_empty] until its resolver
    has run. *)
Inductive Memo (A : Type) : Type :=
| _empty : Memo A
| Resolved (a : A) : Memo A.
Arguments _empty {A}.
Arguments Resolved {A} a.

Definition is_empty {A} (m : Memo A) : bool :=
  match m with _empty => true | Resolved _ => false end.

(** The exceptions the module raises, with their messages, and the
    [ValidationError] that pydantic's [validate_arguments] raises for the
    argument it names. *)
Inductive Exception : Type :=
| ValidationError (argument : string)
| RuntimeError (msg : string)
| NameError (name : string)
| TypeError (msg : string)
| AttributeError (name : string)
| ImproperlyConfiguredException (detail : string)
| ValidationException (detail : string)
| InternalServerException (detail : string).

Inductive Result (A : Type) : Type :=
| Ok (a : A)
| Raise (e : Exception).
Arguments Ok {A} a.
Arguments Raise {A} e.

Definition is_ok {A} (r : Result A) : bool :=
  match r with Ok _ => true | Raise _ => false end.

(** A [dict] with string keys: the entries in insertion order. *)
Definition Dict (V : Type) : Type := list (string * V).

Fixpoint dict_get {V} (d : Dict V) (k : string) : option V :=
  match d with
  | [] => None
  | (k', v) :: rest => if decide (k = k') then Some v else dict_get rest k
  end.

(** [k in d] *)
Definition dict_contains {V} (d : Dict V) (k : string) : bool :=
  match dict_get d k with Some _ => true | None => false end.

(** [d[k] = v]: a present key keeps its place, a new key goes last. *)
Fixpoint dict_set {V} (d : Dict V) (k : string) (v : V) : Dict V :=
  match d with
  | [] => [(k, v)]
  | (k', v') :: rest =>
      if decide (k = k') then (k', v) :: rest else (k', v') :: dict_set rest k v
  end.

Definition keys {V} (d : Dict V) : list string := map fst d.

(** [x or {}] *)
Definition or_empty_dict {V} (x : option (Dict V)) : Dict V :=
  match x with Some d => d | None => [] end.

(** Truth value of an optional list: [None] and [[]] are false. *)
Definition list_truthy {A} (x : option (list A)) : bool :=
  match x with Some (_ :: _) => true | _ => false end.

(** A function or a bound method; [__func__] of a bound method is the
    function it was made from. *)
Inductive Callable (R A B : Type) : Type :=
| PyFunction (f : A -> B)
| PyMethod (receiver : R) (func : A -> B).
Arguments PyFunction {R A B} f.
Arguments PyMethod {R A B} receiver func.

Definition ismethod {R A B} (c : Callable R A B) : bool :=
  match c with PyMethod _ _ => true | PyFunction _ => false end.

Definition __func__ {R A B} (c : Callable R A B) : Callable R A B :=
  match c with PyMethod _ f => PyFunction f | PyFunction f => PyFunction f end.

(** The result of a call that may hand back a coroutine; [await] runs it. *)
Inductive MaybeAwaitable (A : Type) : Type :=
| Plain (a : A)
| Awaitable (a : A).
Arguments Plain {A} a.
Arguments Awaitable {A} a.

Definition await {A} (x : MaybeAwaitable A) : A :=
  match x with Plain a => a | Awaitable a => a end.

(** ** Enumerations and constants imported by the module *)

(** Modelled from the spec: the enumeration [HttpMethod] of [starlite.enums]
    is not part of the sources.  Its members are the verbs the spec lists
    (GET/POST/PUT/PATCH/DELETE), each of which [handlers.py] names; a member
    is a string (the module calls [upper] on members and compares stored
    strings with members by [==]), and its [value] is the verb. *)
Inductive HttpMethod : Type := GET | POST | PUT | PATCH | DELETE.

Definition HttpMethod_value (m : HttpMethod) : string :=
  match m with
  | GET => "GET" | POST => "POST" | PUT => "PUT"
  | PATCH => "PATCH" | DELETE => "DELETE"
  end.

(** Modelled from the spec: the enumeration [MediaType] of [starlite.enums]
    is not part of the sources; the members are the three that
    [handlers.py] names, with their MIME strings as values. *)
Inductive MediaType : Type := JSON | HTML | TEXT.

Definition MediaType_value (m : MediaType) : string :=
  match m with
  | JSON => "application/json" | HTML => "text/html" | TEXT => "text/plain"
  end.

(** starlette.status *)
Definition HTTP_200_OK : Z := 200.
Definition HTTP_201_CREATED : Z := 201.
Definition HTTP_204_NO_CONTENT : Z := 204.

(** Modelled from the spec: [REDIRECT_STATUS_CODES] of [starlite.constants]
    is not part of the sources; the spec gives the valid redirect codes as
    301, 302, 303, 307, 308. *)
Definition REDIRECT_STATUS_CODES : list Z := [301; 302; 303; 307; 308].

(** A value accepted where the signature says [Union[HttpMethod, Method]]:
    a member of the enumeration or a plain string. *)
Inductive MethodValue : Type :=
| Member (m : HttpMethod)
| Str (s : string).

(** The characters of a method value seen as a string. *)
Definition method_str (v : MethodValue) : string :=
  match v with Member m => HttpMethod_value m | Str s => s end.

(** [a == b] on method values: both are strings. *)
Definition method_eq (a b : MethodValue) : bool :=
  bool_decide (method_str a = method_str b).

(** Truth value of a method value: a non-empty string. *)
Definition method_truthy (v : MethodValue) : bool :=
  negb (bool_decide (method_str v = EmptyString)).

Definition upper_ascii (c : ascii) : ascii :=
  let n := nat_of_ascii c in
  if (Nat.leb 97 n && Nat.leb n 122)%bool then ascii_of_nat (n - 32) else c.

(** [s.upper()], on the ASCII letters. *)
Fixpoint upper (s : string) : string :=
  match s with
  | EmptyString => EmptyString
  | String c rest => String (upper_ascii c) (upper rest)
  end.

(** [', '.join(parts)] *)
Fixpoint join (sep : string) (parts : list string) : string :=
  match parts with
  | [] => EmptyString
  | [p] => p
  | p :: rest => p ++ sep ++ join sep rest
  end.

(** [str(n)] for an integer. *)
Definition str_of_int (n : Z) : string := NilZero.string_of_int (Z.to_int n).

(** ** A state and exception monad for methods that assign to [self] *)

Definition M (S A : Type) : Type := S -> Result A * S.

Definition ret {S A} (a : A) : M S A := fun s => (Ok a, s).
Definition raise {S A} (e : Exception) : M S A := fun s => (Raise e, s).
Definition bind {S A B} (m : M S A) (k : A -> M S B) : M S B :=
  fun s => match m s with
           | (Ok a, s') => k a s'
           | (Raise e, s') => (Raise e, s')
           end.
Definition lift {S A} (f : S -> A * S) : M S A :=
  fun s => let '(a, s') := f s in (Ok a, s').
Definition get_self {S} : M S S := fun s => (Ok s, s).
Definition put_self {S} (s : S) : M S unit := fun _ => (Ok tt, s).

Notation "'let!' x ':=' m 'in' k" := (bind m (fun x => k))
  (at level 10, x name, m at level 100, k at level 200).
Notation "'run!' m 'in' k" := (bind m (fun _ => k))
  (at level 10, m at level 100, k at level 200).

(** ** Signatures of handler functions *)

(** What [issubclass] says of an annotation for which [isclass] holds. *)
Inductive ClassAnnotation : Type :=
| Class (subclass_of_Redirect subclass_of_File : bool)
| NotSubclassable.   (* [issubclass] raises [TypeError] *)

Inductive Annotation : Type :=
| Signature_empty
| None_annotation
| ClassObject (c : ClassAnnotation)
| OtherAnnotation.

Record Signature : Type := {
  return_annotation : Annotation;
  parameters : list string
}.

(** [name in signature.parameters] *)
Definition has_parameter (sig : Signature) (name : string) : bool :=
  bool_decide (name ∈ parameters sig).

(** A handler function, as far as the module inspects it. *)
Record AnyCallable : Type := { Signature_from_callable : Signature }.

(** The path argument: a string or a list of strings. *)
Inductive PathArg : Type :=
| PathStr (p : string)
| PathList (ps : list string).

(** The [http_method] argument: one method or a list of methods. *)
Inductive MethodArg : Type :=
| Scalar (v : MethodValue)
| MethodList (vs : list MethodValue).

(** The [http_method] slot: [Union[List[str], str]]. *)
Inductive StoredMethod : Type :=
| StoredList (vs : list string)
| StoredScalar (v : MethodValue).

(** The [media_type] slot: [Union[MediaType, str]]. *)
Inductive MediaTypeValue : Type :=
| MediaMember (m : MediaType)
| MediaStr (s : string).

Definition media_str (v : MediaTypeValue) : string :=
  match v with MediaMember m => MediaType_value m | MediaStr s => s end.

(** ** Handlers, owners and responses *)

Section Model.
(** Guards, providers and every other Python object the module passes
    along without looking inside.  Providers are compared with [==]. *)
Context {Guard Provide Any : Type} `{EqDecision Provide}.

(** [starlite.utils.normalize_path] is not part of the sources. *)
Variable normalize_path : string -> string.

(** [starlite.types.Method], a [Literal] type of strings, is not part of
    the sources: the strings it admits. *)
Variable Method : list string.

(** A response header declaration; the module reads its [value]. *)
Record ResponseHeader : Type := { ResponseHeader_value : Any }.

(** A response class: [starlite.response.Response] or a subclass. *)
Inductive ResponseClass : Type :=
| Response
| ResponseSubclass (cls : Any).

(** The body given to a response class: a list (or tuple) of items, or one
    object. *)
Inductive Content : Type :=
| Sequence (items : list Any)
| Object (obj : Any).

(** Response objects, by the constructor call that makes them. *)
Inductive StarletteResponse : Type :=
| ResponseObject (obj : Any)
| StarliteTypeObject (obj : Any)
| RedirectResponse (headers : Dict Any) (status_code : Z) (url : string)
| FileResponse (media_type : string) (headers : Dict Any) (kwargs : Any)
| StreamingResponse (content : Any) (status_code : Z) (media_type : string)
    (headers : Dict Any)
| TemplateResponse (context : Any) (template_name : string)
    (template_engine : Any) (status_code : Z) (headers : Dict Any)
| ResponseInstance (cls : ResponseClass) (headers : Dict Any)
    (status_code : Z) (content : Content) (media_type : string)
    (background : option Any).

(** What a handler function returns, after any awaiting. *)
Inductive Value : Type :=
| IsResponse (r : StarletteResponse)
| Redirect (path : string)
| File (kwargs : Any)
| Stream (iterator : Any)
| Template (name : string) (context : Any)
| OtherStarliteType (obj : Any)
| PlainData (c : Content).

Definition BeforeRequestHandler : Type := Callable Any Any (Result Any).
Definition AfterRequestHandler : Type :=
  Callable Any StarletteResponse (Result (MaybeAwaitable StarletteResponse)).

(** Calling a callable with one argument.  A bound method would pass its
    receiver first, which a one-argument function rejects. *)
Definition call {A B} (c : Callable Any A (Result B)) (x : A) : Result B :=
  match c with
  | PyFunction f => f x
  | PyMethod _ _ => Raise (TypeError "takes 1 positional argument but 2 were given")
  end.

(** A controller or router: the attributes the resolvers read, and its
    own owner. *)
#[warnings="-register-all"]
Inductive Owner : Type := mkOwner {
  owner_guards : option (list Guard);
  owner_dependencies : option (Dict Provide);
  owner_response_headers : option (Dict ResponseHeader);
  owner_response_class : option ResponseClass;
  owner_before_request : option BeforeRequestHandler;
  owner_after_request : option AfterRequestHandler;
  owner_owner : option Owner
}.

(** The slots of [BaseRouteHandler] ([opt] is stored and never read). *)
Record BaseRouteHandler : Type := mkBase {
  paths : list string;
  dependencies : option (Dict Provide);
  guards : option (list Guard);
  opt : Dict Any;
  fn : option AnyCallable;
  owner : option Owner;
  resolved_dependencies : Memo (Dict Provide);
  resolved_guards : Memo (list Guard);
  signature_model : option Any
}.

(** The slots of [HTTPRouteHandler]; the OpenAPI slots, which the module
    stores and never reads, are left out. *)
Record HTTPRouteHandler : Type := mkHTTP {
  base : BaseRouteHandler;
  http_method : StoredMethod;
  status_code : Z;
  after_request : option AfterRequestHandler;
  background_tasks : option Any;
  before_request : option BeforeRequestHandler;
  media_type : MediaTypeValue;
  response_class : option ResponseClass;
  response_headers : option (Dict ResponseHeader);
  resolved_headers : Memo (Dict ResponseHeader);
  resolved_response_class : Memo ResponseClass;
  resolved_after_request : Memo (option AfterRequestHandler);
  resolved_before_request : Memo (option BeforeRequestHandler)
}.

(** Assignments to single slots. *)
Definition set_resolved_guards (v : Memo (list Guard)) (b : BaseRouteHandler) :=
  mkBase (paths b) (dependencies b) (guards b) (opt b) (fn b) (owner b)
    (resolved_dependencies b) v (signature_model b).
Definition set_resolved_dependencies (v : Memo (Dict Provide)) (b : BaseRouteHandler) :=
  mkBase (paths b) (dependencies b) (guards b) (opt b) (fn b) (owner b)
    v (resolved_guards b) (signature_model b).
Definition set_fn (v : option AnyCallable) (b : BaseRouteHandler) :=
  mkBase (paths b) (dependencies b) (guards b) (opt b) v (owner b)
    (resolved_dependencies b) (resolved_guards b) (signature_model b).
Definition set_base (v : BaseRouteHandler) (h : HTTPRouteHandler) :=
  mkHTTP v (http_method h) (status_code h) (after_request h)
    (background_tasks h) (before_request h) (media_type h) (response_class h)
    (response_headers h) (resolved_headers h) (resolved_response_class h)
    (resolved_after_request h) (resolved_before_request h).
Definition set_media_type (v : MediaTypeValue) (h : HTTPRouteHandler) :=
  mkHTTP (base h) (http_method h) (status_code h) (after_request h)
    (background_tasks h) (before_request h) v (response_class h)
    (response_headers h) (resolved_headers h) (resolved_response_class h)
    (resolved_after_request h) (resolved_before_request h).
Definition set_resolved_headers (v : Memo (Dict ResponseHeader)) (h : HTTPRouteHandler) :=
  mkHTTP (base h) (http_method h) (status_code h) (after_request h)
    (background_tasks h) (before_request h) (media_type h) (response_class h)
    (response_headers h) v (resolved_response_class h)
    (resolved_after_request h) (resolved_before_request h).
Definition set_resolved_response_class (v : Memo ResponseClass) (h : HTTPRouteHandler) :=
  mkHTTP (base h) (http_method h) (status_code h) (after_request h)
    (background_tasks h) (before_request h) (media_type h) (response_class h)
    (response_headers h) (resolved_headers h) v
    (resolved_after_request h) (resolved_before_request h).
Definition set_resolved_after_request (v : Memo (option AfterRequestHandler))
    (h : HTTPRouteHandler) :=
  mkHTTP (base h) (http_method h) (status_code h) (after_request h)
    (background_tasks h) (before_request h) (media_type h) (response_class h)
    (response_headers h) (resolved_headers h) (resolved_response_class h)
    v (resolved_before_request h).
Definition set_resolved_before_request (v : Memo (option BeforeRequestHandler))
    (h : HTTPRouteHandler) :=
  mkHTTP (base h) (http_method h) (status_code h) (after_request h)
    (background_tasks h) (before_request h) (media_type h) (response_class h)
    (response_headers h) (resolved_headers h) (resolved_response_class h)
    (resolved_after_request h) v.

(** *** The ownership walk *)

(** What a resolver reads from one layer of the walk, whichever class the
    layer is an instance of. *)
Record Layer : Type := mkLayer {
  layer_guards : option (list Guard);
  layer_dependencies : option (Dict Provide);
  layer_response_headers : option (Dict ResponseHeader);
  layer_response_class : option ResponseClass;
  layer_before_request : option BeforeRequestHandler;
  layer_after_request : option AfterRequestHandler
}.

Definition layer_of_owner (o : Owner) : Layer :=
  mkLayer (owner_guards o) (owner_dependencies o) (owner_response_headers o)
    (owner_response_class o) (owner_before_request o) (owner_after_request o).

(** A handler that is not an HTTP handler has only the base slots. *)
Definition layer_of_base (b : BaseRouteHandler) : Layer :=
  mkLayer (guards b) (dependencies b) None None None None.

Definition layer_of_http (h : HTTPRouteHandler) : Layer :=
  mkLayer (guards (base h)) (dependencies (base h)) (response_headers h)
    (response_class h) (before_request h) (after_request h).

(** The loop [while cur: value = cur; cur = cur.owner; yield value], from an
    owner on. *)
Fixpoint owners_from (o : Owner) : list Owner :=
  o :: match owner_owner o with
       | Some parent => owners_from parent
       | None => []
       end.

Definition owners_above (o : option Owner) : list Owner :=
  match o with Some p => owners_from p | None => [] end.

(** [BaseRouteHandler.ownership_layers]: handler -> ... -> App *)
Definition ownership_layers (b : BaseRouteHandler) : list Layer :=
  layer_of_base b :: map layer_of_owner (owners_above (owner b)).

(** [HTTPRouteHandler.ownership_layers]: the same walk, seen with the
    attributes of HTTP handlers. *)
Definition http_ownership_layers (h : HTTPRouteHandler) : list Layer :=
  layer_of_http h :: map layer_of_owner (owners_above (owner (base h))).

(** *** BaseRouteHandler.resolve_guards *)

(** The loop body: [if layer.guards: resolved_guards.extend(layer.guards)] *)
Definition extend_with_guards (resolved : list Guard) (layer : Layer) : list Guard :=
  if list_truthy (layer_guards layer)
  then resolved ++ default [] (layer_guards layer)
  else resolved.

Definition resolve_guards (self : BaseRouteHandler) : list Guard * BaseRouteHandler :=
  match resolved_guards self with
  | _empty =>
      let resolved := fold_left extend_with_guards (ownership_layers self) [] in
      (* we reverse the list to ensure that the highest level guards are called first *)
      let self' := set_resolved_guards (Resolved (rev resolved)) self in
      (rev resolved, self')
  | Resolved gs => (gs, self)
  end.

(** *** BaseRouteHandler.resolve_dependencies *)

Definition already_defined_message (key dependency_key : string) : string :=
  "Provider for key " ++ key ++ " is already defined under the different key "
  ++ dependency_key ++ ". "
  ++ "If you wish to override a provider, it must have the same key.".

(** [validate_dependency_is_unique]: the first entry, in insertion order,
    whose provider equals the given one raises. *)
Fixpoint validate_dependency_is_unique (dependencies : Dict Provide)
    (key : string) (provider : Provide) : Result unit :=
  match dependencies with
  | [] => Ok tt
  | (dependency_key, value) :: rest =>
      if decide (provider = value)
      then Raise (ImproperlyConfiguredException
                    (already_defined_message key dependency_key))
      else validate_dependency_is_unique rest key provider
  end.

(** The inner loop over the items of one layer. *)
Fixpoint add_dependencies (items : Dict Provide) (dependencies : Dict Provide)
    : Result (Dict Provide) :=
  match items with
  | [] => Ok dependencies
  | (key, value) :: rest =>
      if dict_contains dependencies key
      then add_dependencies rest dependencies
      else match validate_dependency_is_unique dependencies key value with
           | Ok _ => add_dependencies rest (dict_set dependencies key value)
           | Raise e => Raise e
           end
  end.

(** The outer loop over the layers. *)
Fixpoint merge_dependencies (layers : list Layer) (dependencies : Dict Provide)
    : Result (Dict Provide) :=
  match layers with
  | [] => Ok dependencies
  | layer :: rest =>
      match add_dependencies (or_empty_dict (layer_dependencies layer)) dependencies with
      | Ok dependencies' => merge_dependencies rest dependencies'
      | Raise e => Raise e
      end
  end.

Definition resolve_dependencies : M BaseRouteHandler (Dict Provide) :=
  fun self =>
  match signature_model self with
  | None =>
      (Raise (RuntimeError
         "resolve_dependencies cannot be called before a signature model has been generated"),
       self)
  | Some _ =>
      match resolved_dependencies self with
      | _empty =>
          match merge_dependencies (ownership_layers self) [] with
          | Ok dependencies =>
              (Ok dependencies, set_resolved_dependencies (Resolved dependencies) self)
          | Raise e => (Raise e, self)
          end
      | Resolved d => (Ok d, self)
      end
  end.

(** The inherited resolvers, run on an HTTP handler. *)
Definition http_resolve_guards (self : HTTPRouteHandler) : list Guard * HTTPRouteHandler :=
  let '(gs, b) := resolve_guards (base self) in (gs, set_base b self).

Definition http_resolve_dependencies : M HTTPRouteHandler (Dict Provide) :=
  fun self =>
  let '(r, b) := resolve_dependencies (base self) in (r, set_base b self).

(** *** HTTPRouteHandler.resolve_response_class *)

(** The loop with its [break]: the first layer whose class is not [None]. *)
Fixpoint closest_response_class (layers : list Layer) (current : ResponseClass)
    : ResponseClass :=
  match layers with
  | [] => current
  | layer :: rest =>
      match layer_response_class layer with
      | Some cls => cls
      | None => closest_response_class rest current
      end
  end.

Definition resolve_response_class (self : HTTPRouteHandler)
    : ResponseClass * HTTPRouteHandler :=
  match resolved_response_class self with
  | _empty =>
      let self1 := set_resolved_response_class (Resolved Response) self in
      let cls := closest_response_class (http_ownership_layers self1) Response in
      (cls, set_resolved_response_class (Resolved cls) self1)
  | Resolved cls => (cls, self)
  end.

(** *** HTTPRouteHandler.resolve_response_headers *)

(** [for key, value in items: if key not in headers: headers[key] = value] *)
Fixpoint add_missing {V} (items : Dict V) (headers : Dict V) : Dict V :=
  match items with
  | [] => headers
  | (key, value) :: rest =>
      if dict_contains headers key
      then add_missing rest headers
      else add_missing rest (dict_set headers key value)
  end.

Definition merge_headers (layers : list Layer) : Dict ResponseHeader :=
  fold_left
    (fun headers layer =>
       add_missing (or_empty_dict (layer_response_headers layer)) headers)
    layers [].

Definition resolve_response_headers (self : HTTPRouteHandler)
    : Dict ResponseHeader * HTTPRouteHandler :=
  match resolved_headers self with
  | _empty =>
      let headers := merge_headers (http_ownership_layers self) in
      (headers, set_resolved_headers (Resolved headers) self)
  | Resolved headers => (headers, self)
  end.

(** *** HTTPRouteHandler.resolve_before_request / resolve_after_request *)

(** The loop with its [break]: the first layer that has the hook. *)
Fixpoint first_hook {H} (hook_of : Layer -> option H) (layers : list Layer)
    : option H :=
  match layers with
  | [] => None
  | layer :: rest =>
      match hook_of layer with
      | Some f => Some f
      | None => first_hook hook_of rest
      end
  end.

(** python automatically binds class variables, which we do not want in this
    case. *)
Definition unbind {A B} (c : Callable Any A B) : Callable Any A B :=
  if ismethod c then __func__ c else c.

Definition resolve_before_request (self : HTTPRouteHandler)
    : option BeforeRequestHandler * HTTPRouteHandler :=
  match resolved_before_request self with
  | _empty =>
      let found :=
        match first_hook layer_before_request (http_ownership_layers self) with
        | None => None
        | Some f => Some (unbind f)
        end in
      (found, set_resolved_before_request (Resolved found) self)
  | Resolved found => (found, self)
  end.

Definition resolve_after_request (self : HTTPRouteHandler)
    : option AfterRequestHandler * HTTPRouteHandler :=
  match resolved_after_request self with
  | _empty =>
      let found :=
        match first_hook layer_after_request (http_ownership_layers self) with
        | None => None
        | Some f => Some (unbind f)
        end in
      (found, set_resolved_after_request (Resolved found) self)
  | Resolved found => (found, self)
  end.

(** *** HTTPRouteHandler.__init__ *)

(** [HttpMethod(s)] and [MediaType(s)]: the member with the value [s]. *)
Definition HttpMethod_of_value (s : string) : option HttpMethod :=
  find (fun m => bool_decide (HttpMethod_value m = s)) [GET; POST; PUT; PATCH; DELETE].

Definition MediaType_of_value (s : string) : option MediaType :=
  find (fun m => bool_decide (MediaType_value m = s)) [JSON; HTML; TEXT].

(** What [@validate_arguments] makes of a value announced as
    [Union[HttpMethod, Method]], trying the types in this order: a member
    is kept, a string that is the value of a member becomes that member, a
    string of [Method] is kept, and any other string is refused. *)
Definition validate_method (v : MethodValue) : Result MethodValue :=
  match v with
  | Member m => Ok (Member m)
  | Str s =>
      match HttpMethod_of_value s with
      | Some m => Ok (Member m)
      | None =>
          if bool_decide (s ∈ Method) then Ok (Str s)
          else Raise (ValidationError "http_method")
      end
  end.

(** The items of [List[Union[HttpMethod, Method]]], one after the other. *)
Fixpoint validate_methods (vs : list MethodValue) : Result (list MethodValue) :=
  match vs with
  | [] => Ok []
  | v :: rest =>
      match validate_method v with
      | Raise e => Raise e
      | Ok v' =>
          match validate_methods rest with
          | Raise e => Raise e
          | Ok rest' => Ok (v' :: rest')
          end
      end
  end.

(** The argument [http_method]; its default [None] is let through. *)
Definition validate_http_method (a : option MethodArg) : Result (option MethodArg) :=
  match a with
  | None => Ok None
  | Some (Scalar v) =>
      match validate_method v with
      | Ok v' => Ok (Some (Scalar v'))
      | Raise e => Raise e
      end
  | Some (MethodList vs) =>
      match validate_methods vs with
      | Ok vs' => Ok (Some (MethodList vs'))
      | Raise e => Raise e
      end
  end.

(** The argument [media_type], announced as [Union[MediaType, str]]: a
    string that is the value of a member becomes that member. *)
Definition validate_media_type (v : MediaTypeValue) : MediaTypeValue :=
  match v with
  | MediaMember m => MediaMember m
  | MediaStr s =>
      match MediaType_of_value s with
      | Some m => MediaMember m
      | None => MediaStr s
      end
  end.

(** [not http_method] *)
Definition method_arg_truthy (a : option MethodArg) : bool :=
  match a with
  | None => false
  | Some (Scalar v) => method_truthy v
  | Some (MethodList []) => false
  | Some (MethodList (_ :: _)) => true
  end.

(** The assignments to [self.http_method], on the validated argument. *)
Definition store_http_method (a : MethodArg) : StoredMethod :=
  match a with
  | MethodList vs =>
      match vs with
      | [v] => StoredScalar v                       (* http_method[0] *)
      | _ => StoredList (map (fun v => upper (method_str v)) vs)
      end
  | Scalar (Member m) => StoredScalar (Str (HttpMethod_value m))
  | Scalar (Str s) => StoredScalar (Str s)
  end.

(** The tests on [self.http_method] that pick a status code when none is
    given. *)
Definition status_code_for (stored : StoredMethod) : Z :=
  match stored with
  | StoredList _ => HTTP_200_OK
  | StoredScalar v =>
      if method_eq v (Member POST) then HTTP_201_CREATED
      else if method_eq v (Member DELETE) then HTTP_204_NO_CONTENT
      else HTTP_200_OK
  end.

(** The chain of tests that sets [self.status_code]; [if status_code:] is
    false for [None] and for [0]. *)
Definition default_status_code (status_code : option Z) (stored : StoredMethod) : Z :=
  match status_code with
  | Some code => if (code =? 0)%Z then status_code_for stored else code
  | None => status_code_for stored
  end.

(** The path list of [BaseRouteHandler.__init__]. *)
Definition init_paths (path : option PathArg) : list string :=
  match path with
  | Some (PathList (p :: ps)) => map normalize_path (p :: ps)
  | Some (PathStr p) => [normalize_path (if bool_decide (p = EmptyString) then "/" else p)]
  | _ => [normalize_path "/"]
  end.

Definition BaseRouteHandler_init (path : option PathArg)
    (dependencies : option (Dict Provide)) (guards : option (list Guard))
    (opt : option (Dict Any)) : BaseRouteHandler :=
  mkBase (init_paths path) dependencies guards (default [] opt) None None
    _empty _empty None.

(** The keyword arguments of [HTTPRouteHandler.__init__] other than
    [http_method] and [status_code]. *)
Record HTTPArguments : Type := {
  arg_path : option PathArg;
  arg_after_request : option AfterRequestHandler;
  arg_background_tasks : option Any;
  arg_before_request : option BeforeRequestHandler;
  arg_dependencies : option (Dict Provide);
  arg_guards : option (list Guard);
  arg_media_type : MediaTypeValue;
  arg_opt : option (Dict Any);
  arg_response_class : option ResponseClass;
  arg_response_headers : option (Dict ResponseHeader)
}.

(** The body of [__init__], on the arguments as validation hands them
    over. *)
Definition HTTPRouteHandler_init_body (http_method : option MethodArg)
    (status_code : option Z) (media_type : MediaTypeValue) (args : HTTPArguments)
    : Result HTTPRouteHandler :=
  if negb (method_arg_truthy http_method)
  then Raise (ImproperlyConfiguredException "An http_method kwarg is required")
  else
    let stored := store_http_method (default (MethodList []) http_method) in
    Ok (mkHTTP
          (BaseRouteHandler_init (arg_path args) (arg_dependencies args)
             (arg_guards args) (arg_opt args))
          stored
          (default_status_code status_code stored)
          (arg_after_request args) (arg_background_tasks args)
          (arg_before_request args) media_type
          (arg_response_class args) (arg_response_headers args)
          _empty _empty _empty _empty).

(** [__init__] under [@validate_arguments]: the arguments are validated,
    and the body runs on what validation returns. *)
Definition HTTPRouteHandler_init (http_method : option MethodArg)
    (status_code : option Z) (args : HTTPArguments) : Result HTTPRouteHandler :=
  match validate_http_method http_method with
  | Raise e => Raise e
  | Ok http_method' =>
      HTTPRouteHandler_init_body http_method' status_code
        (validate_media_type (arg_media_type args)) args
  end.

(** [HTTPRouteHandler.http_methods] *)
Definition http_methods (self : HTTPRouteHandler) : list MethodValue :=
  match http_method self with
  | StoredList vs => map Str vs
  | StoredScalar v => [v]
  end.

(** ["GET" in self.http_methods] and the like: list membership by [==]. *)
Definition method_in (name : string) (methods : list MethodValue) : bool :=
  existsb (fun v => method_eq (Str name) v) methods.

(** *** Validation of handler functions *)

(** [BaseRouteHandler.validate_handler_function] *)
Definition base_validate_handler_function (self : BaseRouteHandler)
    : Result AnyCallable :=
  match fn self with
  | None =>
      Raise (ImproperlyConfiguredException
        "Cannot call validate_handler_function without first setting self.fn")
  | Some f => Ok f
  end.

Definition redirect_codes_message : string :=
  "Redirect responses should have one of the following status codes: "
  ++ join ", " (map str_of_int REDIRECT_STATUS_CODES).

(** [self.media_type in [MediaType.JSON, MediaType.HTML]] *)
Definition media_type_in_json_html (v : MediaTypeValue) : bool :=
  bool_decide (media_str v = MediaType_value JSON)
  || bool_decide (media_str v = MediaType_value HTML).

(** The block under [with suppress(TypeError)]. *)
Definition check_class_annotation (c : ClassAnnotation) : M HTTPRouteHandler unit :=
  match c with
  | NotSubclassable => ret tt
  | Class subclass_of_Redirect subclass_of_File =>
      let! self := get_self in
      if subclass_of_Redirect
         && negb (bool_decide (status_code self ∈ REDIRECT_STATUS_CODES))
      then raise (ValidationException redirect_codes_message)
      else if subclass_of_File && media_type_in_json_html (media_type self)
      then put_self (set_media_type (MediaMember TEXT) self)
      else ret tt
  end.

(** [HTTPRouteHandler.validate_handler_function] *)
Definition http_validate_handler_function : M HTTPRouteHandler unit :=
  let! self := get_self in
  match base_validate_handler_function (base self) with
  | Raise e => raise e
  | Ok f =>
      let signature := Signature_from_callable f in
      match return_annotation signature with
      | Signature_empty =>
          raise (ValidationException
            ("A return value of a route handler function should be type annotated."
             ++ "If your function doesn't return a value or returns None, annotate it as returning None."))
      | annotation =>
          run! (match annotation with
                | ClassObject c => check_class_annotation c
                | _ => ret tt
                end) in
          let! self := get_self in
          if has_parameter signature "socket"
          then raise (ImproperlyConfiguredException
                 "The 'socket' kwarg is not supported with http handlers")
          else if has_parameter signature "data" && method_in "GET" (http_methods self)
          then raise (ImproperlyConfiguredException
                 "'data' kwarg is unsupported for 'GET' request handlers")
          else ret tt
      end
  end.

(** [HTTPRouteHandler.__call__] *)
Definition HTTPRouteHandler_call (fn : AnyCallable) : M HTTPRouteHandler unit :=
  let! self := get_self in
  run! put_self (set_base (set_fn (Some fn) (base self)) self) in
  http_validate_handler_function.

(** [WebsocketRouteHandler.validate_handler_function]; a websocket handler
    has the slots of [BaseRouteHandler]. *)
Definition websocket_validate_handler_function (self : BaseRouteHandler)
    : Result unit :=
  match base_validate_handler_function self with
  | Raise e => Raise e
  | Ok f =>
      let signature := Signature_from_callable f in
      if negb (match return_annotation signature with
               | None_annotation => true | _ => false end)
      then Raise (ImproperlyConfiguredException
             "Websocket handler functions should return 'None'")
      else if negb (has_parameter signature "socket")
      then Raise (ImproperlyConfiguredException
             "Websocket handlers must set a 'socket' kwarg")
      else if has_parameter signature "request"
      then Raise (ImproperlyConfiguredException
             "The 'request' kwarg is not supported with websocket handlers")
      else if has_parameter signature "data"
      then Raise (ImproperlyConfiguredException
             "The 'data' kwarg is not supported with websocket handlers")
      else Ok tt
  end.

(** [WebsocketRouteHandler.__call__] *)
Definition WebsocketRouteHandler_call (fn : AnyCallable) : M BaseRouteHandler unit :=
  fun self =>
  let self' := set_fn (Some fn) self in
  (websocket_validate_handler_function self', self').

(** [ASGIRouteHandler.validate_handler_function] *)
Definition asgi_validate_handler_function (self : BaseRouteHandler) : Result unit :=
  match base_validate_handler_function self with
  | Raise e => Raise e
  | Ok f =>
      let signature := Signature_from_callable f in
      if negb (match return_annotation signature with
               | None_annotation => true | _ => false end)
      then Raise (ImproperlyConfiguredException
             "ASGI handler functions should return 'None'")
      else if existsb (fun key => negb (has_parameter signature key))
                ["scope"; "send"; "receive"]
      then Raise (ImproperlyConfiguredException
             "ASGI handler functions should define 'scope', 'send' and 'receive' arguments")
      else Ok tt
  end.

(** *** HTTPRouteHandler.to_response *)

(** A plugin, as far as [to_response] uses it. *)
Record PluginProtocol : Type := { to_dict : Any -> Any }.

(** [starlite.plugins.base.get_plugin_for_value] is not part of the
    sources. *)
Variable get_plugin_for_value : Content -> list PluginProtocol -> option PluginProtocol.

(** What a name that is not local to a function can be bound to: an object
    with an [app] whose [template_engine] may be unset, or anything else. *)
Inductive GlobalValue : Type :=
| RequestObject (app_template_engine : option Any)
| ModuleObject.

(** The names that [handlers.py] binds at module level (its imports at run
    time, its classes and its aliases).  None of the remaining names is a
    Python builtin that matters here. *)
Definition module_names : list string :=
  [ "suppress"; "copy"; "Enum"; "Signature"; "isawaitable"; "isclass";
    "ismethod"; "TYPE_CHECKING"; "Any"; "Dict"; "Generator"; "List";
    "Optional"; "Type"; "Union"; "cast"; "validate_arguments"; "AnyCallable";
    "BackgroundTask"; "BackgroundTasks"; "HTTPConnection"; "FileResponse";
    "RedirectResponse"; "StarletteResponse"; "StreamingResponse";
    "HTTP_200_OK"; "HTTP_201_CREATED"; "HTTP_204_NO_CONTENT";
    "REDIRECT_STATUS_CODES"; "Controller"; "File"; "Redirect"; "StarliteType";
    "Stream"; "Template"; "HttpMethod"; "MediaType"; "HTTPException";
    "ImproperlyConfiguredException"; "InternalServerException";
    "ValidationException"; "PluginProtocol"; "get_plugin_for_value"; "Provide";
    "Response"; "TemplateResponse"; "AfterRequestHandler"; "AsyncAnyCallable";
    "BeforeRequestHandler"; "Guard"; "Method"; "ResponseHeader";
    "SignatureModel"; "normalize_path"; "_empty"; "BaseRouteHandler";
    "HTTPRouteHandler"; "route"; "get"; "post"; "put"; "patch"; "delete";
    "WebsocketRouteHandler"; "websocket"; "ASGIRouteHandler"; "asgi" ].

Definition handlers_globals : Dict GlobalValue :=
  map (fun name => (name, ModuleObject)) module_names.

(** Reading a name that the function never assigns: it is looked up in the
    module's globals when the line runs. *)
Definition load_global (globals : Dict GlobalValue) (name : string)
    : Result GlobalValue :=
  match dict_get globals name with
  | Some v => Ok v
  | None => Raise (NameError name)
  end.

(** [request.app.template_engine] *)
Definition request_app_template_engine (globals : Dict GlobalValue)
    : Result (option Any) :=
  match load_global globals "request" with
  | Raise e => Raise e
  | Ok (RequestObject template_engine) => Ok template_engine
  | Ok ModuleObject => Raise (AttributeError "app")
  end.

(** [{k: v.value for k, v in resolved.items()}] *)
Definition header_values (resolved : Dict ResponseHeader) : Dict Any :=
  map (fun kv => (fst kv, ResponseHeader_value (snd kv))) resolved.

(** The plugin step on data that is no response and no wrapper. *)
Definition convert_with_plugin (plugins : list PluginProtocol) (data : Content)
    : Content :=
  match get_plugin_for_value data plugins with
  | Some plugin =>
      match data with
      | Sequence items => Sequence (map (to_dict plugin) items)
      | Object obj => Object (to_dict plugin obj)
      end
  | None => data
  end.

(** The dispatch on the kind of [data] that builds [response]. *)
Definition build_response (globals : Dict GlobalValue) (data : Value)
    (plugins : list PluginProtocol) (media_type : string) (headers : Dict Any)
    : M HTTPRouteHandler StarletteResponse :=
  let! self := get_self in
  match data with
  | Redirect path => ret (RedirectResponse headers (status_code self) path)
  | File kwargs => ret (FileResponse media_type headers kwargs)
  | Stream iterator =>
      ret (StreamingResponse iterator (status_code self) media_type headers)
  | Template name context =>
      match request_app_template_engine globals with
      | Raise e => raise e
      | Ok (Some template_engine) =>
          ret (TemplateResponse context name template_engine (status_code self)
                 headers)
      | Ok None =>
          raise (InternalServerException
                   "Template engine was not initialized in app")
      end
  | IsResponse r => ret r
  | OtherStarliteType obj => ret (StarliteTypeObject obj)
  | PlainData content =>
      let content := convert_with_plugin plugins content in
      let! response_class := lift resolve_response_class in
      ret (ResponseInstance response_class headers (status_code self) content
             media_type (background_tasks self))
  end.

(** Run the after_request hook handler. *)
Definition run_after_request (after_request : option AfterRequestHandler)
    (response : StarletteResponse) : Result StarletteResponse :=
  match after_request with
  | Some hook =>
      match call hook response with
      | Ok r => Ok (await r)
      | Raise e => Raise e
      end
  | None => Ok response
  end.

(** [to_response], with the module globals it runs under made explicit. *)
Definition to_response_under (globals : Dict GlobalValue)
    (data : MaybeAwaitable Value) (plugins : list PluginProtocol)
    : M HTTPRouteHandler StarletteResponse :=
  let data := await data in
  let! after_request := lift resolve_after_request in
  let! self := get_self in
  let media_type := media_str (media_type self) in
  let! resolved := lift resolve_response_headers in
  let headers := header_values resolved in
  let! response := build_response globals data plugins media_type headers in
  match run_after_request after_request response with
  | Ok r => ret r
  | Raise e => raise e
  end.

(** [HTTPRouteHandler.to_response] as the module defines it. *)
Definition to_response (data : MaybeAwaitable Value) (plugins : list PluginProtocol)
    : M HTTPRouteHandler StarletteResponse :=
  to_response_under handlers_globals data plugins.

End Model.

(** ** The verb classes *)

Section Verbs.
Context {Guard Provide Any : Type}.
Variable normalize_path : string -> string.
Variable Method : list string.

(** [get.__init__]: [HTTPRouteHandler.__init__] with
    [http_method=HttpMethod.GET]; the other four classes likewise. *)
Definition get_init (status_code : option Z)
    (args : @HTTPArguments Guard Provide Any) : Result HTTPRouteHandler :=
  HTTPRouteHandler_init normalize_path Method (Some (Scalar (Member GET))) status_code
    args.

Definition post_init (status_code : option Z)
    (args : @HTTPArguments Guard Provide Any) : Result HTTPRouteHandler :=
  HTTPRouteHandler_init normalize_path Method (Some (Scalar (Member POST))) status_code
    args.

Definition put_init (status_code : option Z)
    (args : @HTTPArguments Guard Provide Any) : Result HTTPRouteHandler :=
  HTTPRouteHandler_init normalize_path Method (Some (Scalar (Member PUT))) status_code
    args.

Definition patch_init (status_code : option Z)
    (args : @HTTPArguments Guard Provide Any) : Result HTTPRouteHandler :=
  HTTPRouteHandler_init normalize_path Method (Some (Scalar (Member PATCH))) status_code
    args.

Definition delete_init (status_code : option Z)
    (args : @HTTPArguments Guard Provide Any) : Result HTTPRouteHandler :=
  HTTPRouteHandler_init normalize_path Method (Some (Scalar (Member DELETE))) status_code
    args.

(** The class of a verb. *)
Definition verb_init (m : HttpMethod) :=
  match m with
  | GET => get_init
  | POST => post_init
  | PUT => put_init
  | PATCH => patch_init
  | DELETE => delete_init
  end.

End Verbs.

(** ** BaseRouteHandler.authorize_connection *)

Section Authorization.
(** Connections, and the errors that guards raise, are not looked into. *)
Context {Guard Provide Any Connection GuardError : Type}.

(** What [guard(connection, handler)] does: it returns a value that is not
    awaitable, or an awaitable whose awaiting returns or raises, or it
    raises. *)
Inductive GuardOutcome : Type :=
| GuardReturns
| GuardAwaitable (raised : option GuardError)
| GuardRaises (e : GuardError).

(** The error that the call and the awaiting of its result end with. *)
Definition guard_error (o : GuardOutcome) : option GuardError :=
  match o with
  | GuardReturns => None
  | GuardAwaitable raised => raised
  | GuardRaises e => Some e
  end.

(** Calling a guard. *)
Variable invoke : Guard -> Connection -> @BaseRouteHandler Guard Provide Any -> GuardOutcome.

(** [copy(self)]: a new object with the same slots. *)
Definition copy (self : @BaseRouteHandler Guard Provide Any)
    : @BaseRouteHandler Guard Provide Any := self.

(** The loop of [authorize_connection]: the error that ends it, if any, and
    the guards that were called, in the order of the calls. *)
Fixpoint run_guards (guards : list Guard) (connection : Connection)
    (self : @BaseRouteHandler Guard Provide Any) : option GuardError * list Guard :=
  match guards with
  | [] => (None, [])
  | guard :: rest =>
      match guard_error (invoke guard connection (copy self)) with
      | Some e => (Some e, [guard])
      | None =>
          let '(raised, called) := run_guards rest connection self in
          (raised, guard :: called)
      end
  end.

Definition authorize_connection (connection : Connection)
    (self : @BaseRouteHandler Guard Provide Any)
    : (option GuardError * list Guard) * @BaseRouteHandler Guard Provide Any :=
  let '(guards, self') := resolve_guards self in
  (run_guards guards connection self', self').

End Authorization.

(** [ASGIRouteHandler.__call__]; an ASGI handler has the slots of
    [BaseRouteHandler]. *)
Definition ASGIRouteHandler_call {Guard Provide Any : Type} (fn : AnyCallable)
    : M (@BaseRouteHandler Guard Provide Any) unit :=
  fun self =>
  let self' := set_fn (Some fn) self in
  (asgi_validate_handler_function self', self').

(** ** Reference notions that the properties compare the code with *)

Section Reference.
Context {Guard Provide Any : Type} `{EqDecision Provide}.

(** The guard list of a layer, empty when the layer declares none. *)
Definition guards_of (layer : @Layer Guard Provide Any) : list Guard :=
  default [] (layer_guards layer).

(** The layers' guard lists concatenated root first, each list in the order
    it was declared. *)
Definition guards_root_first (b : @BaseRouteHandler Guard Provide Any) : list Guard :=
  concat (map guards_of (rev (ownership_layers b))).

(** The dependency declarations of the chain, from the node outwards. *)
Definition declarations (b : @BaseRouteHandler Guard Provide Any) : Dict Provide :=
  concat (map (fun layer => or_empty_dict (layer_dependencies layer))
            (ownership_layers b)).

(** Two different names are declared with the same provider. *)
Definition aliased (decls : Dict Provide) : Prop :=
  exists k1 k2 p, k1 <> k2 /\ (k1, p) ∈ decls /\ (k2, p) ∈ decls.

(** The entries that are not shadowed: of the entries for one name, only
    the first met on the way from the node to the root. *)
Fixpoint unshadowed_from {V} (seen : list string) (decls : Dict V) : Dict V :=
  match decls with
  | [] => []
  | (k, p) :: rest =>
      if bool_decide (k ∈ seen) then unshadowed_from seen rest
      else (k, p) :: unshadowed_from (seen ++ [k]) rest
  end.

Definition unshadowed {V} (decls : Dict V) : Dict V :=
  unshadowed_from [] decls.

(** The response header declarations of the chain, from the node
    outwards. *)
Definition header_declarations (h : @HTTPRouteHandler Guard Provide Any)
    : Dict (@ResponseHeader Any) :=
  concat (map (fun layer => or_empty_dict (layer_response_headers layer))
            (http_ownership_layers h)).

(** A second call gives the result of the first and leaves the handler as
    the first call left it. *)
Definition second_call_same {S A} (resolver : S -> A * S) (s : S) : Prop :=
  resolver (snd (resolver s)) = (fst (resolver s), snd (resolver s)).

(** A call on a handler whose slot holds a value returns that value and
    assigns nothing. *)
Definition reads_memo {S A} (resolver : S -> A * S) (slot : S -> Memo A) : Prop :=
  forall s a, slot s = Resolved a -> resolver s = (a, s).

(** After a call the slot holds the value that was returned. *)
Definition stores_memo {S A} (resolver : S -> A * S) (slot : S -> Memo A) : Prop :=
  forall s, slot (snd (resolver s)) = Resolved (fst (resolver s)).

(** The handler with another value in its [http_method] slot. *)
Definition with_http_method (m : StoredMethod) (h : @HTTPRouteHandler Guard Provide Any)
    : @HTTPRouteHandler Guard Provide Any :=
  mkHTTP (base h) m (status_code h) (after_request h) (background_tasks h)
    (before_request h) (media_type h) (response_class h) (response_headers h)
    (resolved_headers h) (resolved_response_class h) (resolved_after_request h)
    (resolved_before_request h).

(** The dependency slot is unresolved or holds what the merge of the
    chain gives: the states that construction and [resolve_dependencies]
    lead to. *)
Definition dependencies_memo_sound (b : @BaseRouteHandler Guard Provide Any) : Prop :=
  match resolved_dependencies b with
  | _empty => True
  | Resolved d => merge_dependencies (ownership_layers b) [] = Ok d
  end.

(** The handler at the point of [to_response] where [response] is built,
    and the headers passed to the response. *)
Definition handler_at_dispatch (h : @HTTPRouteHandler Guard Provide Any)
    : @HTTPRouteHandler Guard Provide Any :=
  snd (resolve_response_headers (snd (resolve_after_request h))).

Definition headers_at_dispatch (h : @HTTPRouteHandler Guard Provide Any) : Dict Any :=
  header_values (fst (resolve_response_headers (snd (resolve_after_request h)))).

(** Python [==] on the values of the [http_method] slot. *)
Definition stored_method_eq (a b : StoredMethod) : bool :=
  match a, b with
  | StoredScalar x, StoredScalar y => method_eq x y
  | StoredList xs, StoredList ys => bool_decide (xs = ys)
  | _, _ => false
  end.

(** The status code the spec gives for a method when none is passed. *)
Definition documented_status_code (m : HttpMethod) : Z :=
  match m with
  | GET | PUT | PATCH => 200
  | POST => 201
  | DELETE => 204
  end.

End Reference.

(** The method values an [http_method] argument holds. *)
Definition method_values (a : option MethodArg) : list MethodValue :=
  match a with
  | None => []
  | Some (Scalar v) => [v]
  | Some (MethodList vs) => vs
  end.

(** The method values of [Union[HttpMethod, Method]]: a member of
    [HttpMethod], the value of one, or a string of [Method]. *)
Definition admitted_method (Method : list string) (v : MethodValue) : Prop :=
  match v with
  | Member _ => True
  | Str s => (exists m, s = HttpMethod_value m) \/ s ∈ Method
  end.

(** The function behind a callable: the function itself, or the function a
    bound method was made from. *)
Definition function_of {R A B} (c : Callable R A B) : A -> B :=
  match c with
  | PyFunction f => f
  | PyMethod _ f => f
  end.

(** The nearest layer, if any, at which an optional attribute is set:
    position, and value. *)
Definition nearest_set {L A} (attribute : L -> option A) (layers : list L)
    (i : nat) (value : A) : Prop :=
  (exists layer, layers !! i = Some layer /\ attribute layer = Some value)
  /\ (forall m layer, (m < i)%nat -> layers !! m = Some layer ->
        attribute layer = None).

(** ** Concrete handlers

    Guards, providers and other objects are named by strings. *)

Module Examples.

Definition base_handler (dependencies : option (Dict string))
    (guards : option (list string)) (owner : option (@Owner string string string))
    : @BaseRouteHandler string string string :=
  mkBase ["/"] dependencies guards [] None owner _empty _empty
    (Some "SignatureModel").

(** A handler without owner that declares two guards. *)
Definition two_guards : @BaseRouteHandler string string string :=
  base_handler None (Some ["first"; "second"]) None.

(** A router that declares one provider under two names, below a handler
    that overrides one of the names. *)
Definition aliasing_router : @Owner string string string :=
  mkOwner None (Some [("a", "shared"); ("b", "shared")]) None None None None None.

Definition overriding_handler : @BaseRouteHandler string string string :=
  base_handler (Some [("a", "own")]) None (Some aliasing_router).

(** A handler that declares one provider under two names. *)
Definition aliasing_handler : @BaseRouteHandler string string string :=
  base_handler (Some [("a", "shared"); ("b", "shared")]) None None.

(** A handler and its router declare the same name. *)
Definition db_router : @Owner string string string :=
  mkOwner None (Some [("db", "router_db")]) None None None None None.

Definition db_handler : @BaseRouteHandler string string string :=
  base_handler (Some [("db", "handler_db")]) None (Some db_router).

(** Strings for [Method] in the examples. *)
Definition method_literals : list string :=
  ["GET"; "POST"; "DELETE"; "PATCH"; "PUT"; "HEAD"].

Definition plain_arguments : @HTTPArguments string string string :=
  {| arg_path := None; arg_after_request := None; arg_background_tasks := None;
     arg_before_request := None; arg_dependencies := None; arg_guards := None;
     arg_media_type := MediaMember JSON; arg_opt := None;
     arg_response_class := None; arg_response_headers := None |}.

Definition http_handler (status_code : Z)
    (after_request : option (@AfterRequestHandler string))
    : @HTTPRouteHandler string string string :=
  mkHTTP (base_handler None None None) (StoredScalar (Str "GET")) status_code
    after_request None None (MediaMember JSON) None None
    _empty _empty _empty _empty.

(** [def handler(socket) -> Redirect] *)
Definition redirect_with_socket : AnyCallable :=
  {| Signature_from_callable :=
       {| return_annotation := ClassObject (Class true false);
          parameters := ["socket"] |} |}.

(** [def handler() -> Redirect] *)
Definition redirect_function : AnyCallable :=
  {| Signature_from_callable :=
       {| return_annotation := ClassObject (Class true false);
          parameters := [] |} |}.

(** An after-request hook that answers with a response of its own. *)
Definition replacing_hook : @AfterRequestHandler string :=
  PyFunction (fun _ => Ok (Plain (ResponseObject "replacement"))).

(** [async def handler(socket) -> None] *)
Definition websocket_function : AnyCallable :=
  {| Signature_from_callable :=
       {| return_annotation := None_annotation; parameters := ["socket"] |} |}.

Definition no_plugin (c : @Content string) (ps : list (@PluginProtocol string))
    : option (@PluginProtocol string) := None.

(** An application that sets guards, headers, a response class and, as a
    bound method, an after-request hook; a router below it; an HTTP handler
    below the router. *)
Definition header (v : string) : @ResponseHeader string :=
  {| ResponseHeader_value := v |}.

Definition tagging_hook (r : @StarletteResponse string)
    : Result (MaybeAwaitable (@StarletteResponse string)) :=
  Ok (Awaitable r).

Definition app_layer : @Owner string string string :=
  mkOwner (Some ["app_guard"]) (Some [("session", "app_session")])
    (Some [("x-app", header "app"); ("x-shared", header "from_app")])
    (Some (ResponseSubclass "AppResponse")) None
    (Some (PyMethod "app" tagging_hook)) None.

Definition router_layer : @Owner string string string :=
  mkOwner (Some ["router_guard"]) None
    (Some [("x-shared", header "from_router")]) None None None (Some app_layer).

Definition routed_base : @BaseRouteHandler string string string :=
  base_handler (Some [("db", "handler_db")]) (Some ["handler_guard"])
    (Some router_layer).

Definition routed_handler : @HTTPRouteHandler string string string :=
  mkHTTP routed_base (StoredScalar (Str "GET")) 200 None (Some "task") None
    (MediaMember JSON) None (Some [("x-own", header "own")])
    _empty _empty _empty _empty.

(** A guard policy under which only the router's guard refuses. *)
Definition refusing_invoke (guard : string) (connection : string)
    (self : @BaseRouteHandler string string string)
    : @GuardOutcome string :=
  if bool_decide (guard = "router_guard") then GuardRaises "denied"
  else GuardAwaitable None.

(** [def handler(data) -> None] *)
Definition data_function : AnyCallable :=
  {| Signature_from_callable :=
       {| return_annotation := None_annotation; parameters := ["data"] |} |}.

(** [def handler() -> File] *)
Definition file_function : AnyCallable :=
  {| Signature_from_callable :=
       {| return_annotation := ClassObject (Class false true);
          parameters := [] |} |}.

(** [def handler(scope, receive, send) -> None] *)
Definition asgi_function : AnyCallable :=
  {| Signature_from_callable :=
       {| return_annotation := None_annotation;
          parameters := ["scope"; "receive"; "send"] |} |}.

(** A plugin that handles everything. *)
Definition wrapping_plugin : @PluginProtocol string :=
  {| to_dict := fun obj : string => String.append "dict:" obj |}.

Definition first_plugin (c : @Content string) (ps : list (@PluginProtocol string))
    : option (@PluginProtocol string) := head ps.

End Examples.

(** * Properties *)

Section GuardProperties.
Context {Guard Provide Any : Type} `{EqDecision Provide}.

Local Abbreviation Handler := (@BaseRouteHandler Guard Provide Any).
Local Abbreviation LayerView := (@Layer Guard Provide Any).

(** ** Guards *)

Lemma extend_with_guards_app (resolved : list Guard) (layer : LayerView) :
  extend_with_guards resolved layer = resolved ++ guards_of layer.
Proof.
  unfold extend_with_guards, guards_of.
  destruct (layer_guards layer) as [[|g gs]|]; simpl; auto using app_nil_r.
  all: symmetry; apply app_nil_r.
Qed.

Lemma fold_extend_with_guards (layers : list LayerView) (acc : list Guard) :
  fold_left extend_with_guards layers acc = acc ++ concat (map guards_of layers).
Proof.
  revert acc. induction layers as [|layer layers IH]; intros acc; simpl.
  - symmetry. apply app_nil_r.
  - rewrite IH, extend_with_guards_app. symmetry. apply app_assoc.
Qed.

Lemma rev_concat {A} (ls : list (list A)) :
  rev (concat ls) = concat (map (@rev A) (rev ls)).
Proof.
  induction ls as [|l ls IH]; simpl; [reflexivity|].
  rewrite rev_app_distr, IH, map_app, concat_app. simpl.
  now rewrite app_nil_r.
Qed.

(** What the first call of [resolve_guards] computes: the layers come out
    root first, and the guards of each layer in reverse. *)
Lemma resolve_guards_fresh (b : Handler) :
  resolved_guards b = _empty ->
  fst (resolve_guards b)
  = concat (map (fun layer => rev (guards_of layer)) (rev (ownership_layers b))).
Proof.
  intros Hempty. unfold resolve_guards. rewrite Hempty. cbn [fst].
  rewrite fold_extend_with_guards. cbn [app].
  rewrite rev_concat, <- map_rev, map_map. reflexivity.
Qed.

(** With at most one guard per layer the order inside a layer does not
    show, and the result is the root-first concatenation. *)
Lemma resolve_guards_root_first_single (b : Handler) :
  resolved_guards b = _empty ->
  Forall (fun layer => (length (guards_of layer) <= 1)%nat) (ownership_layers b) ->
  fst (resolve_guards b) = guards_root_first b.
Proof.
  intros Hempty Hone. rewrite resolve_guards_fresh by assumption.
  unfold guards_root_first. f_equal.
  apply Forall_rev in Hone.
  induction Hone as [|layer layers Hlen _ IH]; simpl; [reflexivity|].
  rewrite IH. f_equal.
  destruct (guards_of layer) as [|g [|g' gs]]; simpl in *; try reflexivity; lia.
Qed.

(** A resolved slot is returned as it is, whatever the layers hold. *)
Lemma resolve_guards_memo (b : Handler) (gs : list Guard) :
  resolved_guards b = Resolved gs -> resolve_guards b = (gs, b).
Proof. intros Hmemo. unfold resolve_guards. now rewrite Hmemo. Qed.

Lemma resolve_guards_stores (b : Handler) :
  resolved_guards (snd (resolve_guards b)) = Resolved (fst (resolve_guards b)).
Proof.
  unfold resolve_guards. destruct (resolved_guards b) eqn:Hmemo; simpl; auto.
Qed.

(** The second call returns the list that the first call stored. *)
Lemma resolve_guards_twice (b : Handler) :
  resolve_guards (snd (resolve_guards b))
  = (fst (resolve_guards b), snd (resolve_guards b)).
Proof. apply resolve_guards_memo, resolve_guards_stores. Qed.

(** C1.  The first call of [resolve_guards] returns the layers' guards
    root first, but the guards of each layer in reverse of their declared
    order.  So on a handler without owner that declares two different
    guards, the second guard comes first, whereas the root-first
    concatenation of the layers' guard lists, each in its declared order,
    has the first guard first. *)
Theorem resolve_guards_reverses_each_layer (b : Handler) (g1 g2 : Guard) :
  resolved_guards b = _empty ->
  fst (resolve_guards b)
  = concat (map (fun layer => rev (guards_of layer)) (rev (ownership_layers b)))
  /\ (owner b = None -> guards b = Some [g1; g2] -> g1 <> g2 ->
      fst (resolve_guards b) = [g2; g1]
      /\ guards_root_first b = [g1; g2]
      /\ fst (resolve_guards b) <> guards_root_first b).
Proof.
  intros Hempty. split; [now apply resolve_guards_fresh|].
  intros Howner Hguards Hne.
  rewrite (resolve_guards_fresh b Hempty).
  unfold guards_root_first, ownership_layers, guards_of, layer_of_base.
  rewrite Howner, Hguards. cbn.
  split; [reflexivity|]. split; [reflexivity|].
  intros Heq. injection Heq as Heq _. congruence.
Qed.

End GuardProperties.

Lemma resolve_guards_reverses_each_layer_witness :
  fst (resolve_guards Examples.two_guards) = ["second"; "first"]
  /\ guards_root_first Examples.two_guards = ["first"; "second"]
  /\ fst (resolve_guards Examples.two_guards)
     <> guards_root_first Examples.two_guards.
Proof.
  destruct (resolve_guards_reverses_each_layer Examples.two_guards
              "first" "second" eq_refl) as (_ & Hreversed).
  apply Hreversed; [reflexivity | reflexivity | discriminate].
Defined.

Section DependencyProperties.
Context {Guard Provide Any : Type} `{EqDecision Provide}.

Local Abbreviation Handler := (@BaseRouteHandler Guard Provide Any).
Local Abbreviation LayerView := (@Layer Guard Provide Any).

(** ** Dictionaries *)

Lemma dict_contains_keys {V} (d : Dict V) (k : string) :
  dict_contains d k = true <-> k ∈ keys d.
Proof.
  unfold dict_contains, keys. induction d as [|[k' v] d IH]; simpl.
  - split; [intros Hf; discriminate Hf | intros Hin; inversion Hin].
  - destruct (decide (k = k')) as [->|Hne].
    + split; [intros _; left | reflexivity].
    + rewrite IH. split; [intros Hin; now right|].
      intros Hin. inversion Hin; subst; [contradiction | assumption].
Qed.

Lemma dict_contains_false {V} (d : Dict V) (k : string) :
  dict_contains d k = false <-> k ∉ keys d.
Proof.
  rewrite <- dict_contains_keys. destruct (dict_contains d k); split; congruence.
Qed.

Lemma dict_set_fresh {V} (d : Dict V) (k : string) (v : V) :
  k ∉ keys d -> dict_set d k v = d ++ [(k, v)].
Proof.
  unfold keys. induction d as [|[k' v'] d IH]; simpl; intros Hfresh; [reflexivity|].
  destruct (decide (k = k')) as [->|Hne].
  - exfalso. apply Hfresh. left.
  - f_equal. apply IH. intros Hin. apply Hfresh. now right.
Qed.

Lemma dict_get_app {V} (a b : Dict V) (k : string) :
  dict_get (a ++ b) k
  = match dict_get a k with Some v => Some v | None => dict_get b k end.
Proof.
  induction a as [|[k' v] a IH]; simpl; [reflexivity|].
  destruct (decide (k = k')); [reflexivity | apply IH].
Qed.

Lemma dict_get_None_keys {V} (d : Dict V) (k : string) :
  dict_get d k = None <-> k ∉ keys d.
Proof.
  rewrite <- dict_contains_false. unfold dict_contains.
  destruct (dict_get d k); split; congruence.
Qed.

(** ** Unshadowed declarations *)

Lemma unshadowed_from_subset {V} (decls : Dict V) (seen : list string) kp :
  kp ∈ unshadowed_from seen decls -> kp ∈ decls.
Proof.
  revert seen. induction decls as [|[k p] decls IH]; intros seen; simpl.
  - intros Hin; inversion Hin.
  - case_bool_decide.
    + intros Hin. right. eapply IH, Hin.
    + intros Hin. inversion Hin; subst; [left | right; eapply IH; eassumption].
Qed.

Lemma dict_get_unshadowed_from {V} (decls : Dict V) (seen : list string) k :
  dict_get (unshadowed_from seen decls) k
  = if bool_decide (k ∈ seen) then None else dict_get decls k.
Proof.
  revert seen. induction decls as [|[k' p] decls IH]; intros seen; simpl.
  - now case_bool_decide.
  - destruct (decide (k' ∈ seen)) as [Hin|Hnin].
    + rewrite (bool_decide_eq_true_2 _ Hin), IH.
      destruct (decide (k ∈ seen)) as [Hk|Hk].
      * now rewrite (bool_decide_eq_true_2 _ Hk).
      * rewrite (bool_decide_eq_false_2 _ Hk).
        destruct (decide (k = k')) as [->|]; [contradiction | reflexivity].
    + rewrite (bool_decide_eq_false_2 _ Hnin). simpl.
      destruct (decide (k = k')) as [->|Hne].
      * now rewrite (bool_decide_eq_false_2 _ Hnin).
      * rewrite IH. destruct (decide (k ∈ seen)) as [Hk|Hk].
        -- rewrite (bool_decide_eq_true_2 _ Hk), bool_decide_eq_true_2;
             [reflexivity | apply elem_of_app; now left].
        -- rewrite (bool_decide_eq_false_2 _ Hk), bool_decide_eq_false_2;
             [reflexivity|].
           rewrite elem_of_app, list_elem_of_singleton. tauto.
Qed.

Lemma dict_get_unshadowed {V} (decls : Dict V) k :
  dict_get (unshadowed decls) k = dict_get decls k.
Proof.
  unfold unshadowed. rewrite dict_get_unshadowed_from.
  case_bool_decide as Hin; [inversion Hin | reflexivity].
Qed.

(** Distinct providers leave no room for two names of one provider. *)
Lemma NoDup_providers_not_aliased (d : Dict Provide) :
  NoDup (map snd d) -> ~ aliased d.
Proof.
  induction d as [|[k p] d IH]; intros Hnd (k1 & k2 & q & Hne & H1 & H2).
  - inversion H1.
  - simpl in Hnd. apply NoDup_cons in Hnd as [Hfresh Hnd].
    assert (Hsnd : forall k', (k', p) ∈ d -> False).
    { intros k' Hin. apply Hfresh.
      apply list_elem_of_fmap. exists (k', p). split; [reflexivity | assumption]. }
    apply elem_of_cons in H1 as [Heq1|Hin1]; apply elem_of_cons in H2 as [Heq2|Hin2].
    + congruence.
    + injection Heq1 as -> ->. eapply Hsnd; eassumption.
    + injection Heq2 as -> ->. eapply Hsnd; eassumption.
    + apply IH; [assumption|]. exists k1, k2, q. auto.
Qed.

(** ** The uniqueness check *)

Lemma validate_dependency_is_unique_ok (d : Dict Provide) key provider :
  provider ∉ map snd d -> validate_dependency_is_unique d key provider = Ok tt.
Proof.
  induction d as [|[dk v] d IH]; simpl; intros Hfresh; [reflexivity|].
  destruct (decide (provider = v)) as [->|Hne].
  - exfalso. apply Hfresh. left.
  - apply IH. intros Hin. apply Hfresh. now right.
Qed.

Lemma validate_dependency_is_unique_cases (d : Dict Provide) key provider :
  (validate_dependency_is_unique d key provider = Ok tt /\ provider ∉ map snd d)
  \/ (exists dk, (dk, provider) ∈ d
        /\ validate_dependency_is_unique d key provider
           = Raise (ImproperlyConfiguredException (already_defined_message key dk))).
Proof.
  induction d as [|[dk v] d IH]; simpl.
  - left. split; [reflexivity | intros Hin; inversion Hin].
  - destruct (decide (provider = v)) as [->|Hne].
    + right. exists dk. split; [left | reflexivity].
    + destruct IH as [[Hok Hfresh] | (dk' & Hin & Hraise)].
      * left. split; [assumption|].
        intros Hin. inversion Hin; subst; contradiction.
      * right. exists dk'. split; [now right | assumption].
Qed.

(** ** The merge of the declarations *)

Lemma keys_app {V} (a b : Dict V) : keys (a ++ b) = keys a ++ keys b.
Proof. unfold keys. apply map_app. Qed.

Lemma key_of_entry {V} (d : Dict V) (k : string) (v : V) : (k, v) ∈ d -> k ∈ keys d.
Proof.
  intros Hin. unfold keys. apply list_elem_of_fmap. now exists (k, v).
Qed.

(** The inner loop either returns the dictionary extended with the
    declarations that are not shadowed, all providers distinct, or raises on
    the first declaration whose provider is already there under another
    name. *)
Lemma add_dependencies_cases (items d : Dict Provide) :
  NoDup (map snd d) ->
  (add_dependencies items d = Ok (d ++ unshadowed_from (keys d) items)
   /\ NoDup (map snd (d ++ unshadowed_from (keys d) items)))
  \/ (exists key dk p,
        key <> dk
        /\ (key, p) ∈ unshadowed_from (keys d) items
        /\ (dk, p) ∈ d ++ unshadowed_from (keys d) items
        /\ add_dependencies items d
           = Raise (ImproperlyConfiguredException (already_defined_message key dk))).
Proof.
  revert d. induction items as [|[k p] items IH]; intros d Hnd; simpl.
  - left. rewrite app_nil_r. auto.
  - destruct (dict_contains d k) eqn:Hcontains.
    + apply dict_contains_keys in Hcontains.
      rewrite (bool_decide_eq_true_2 _ Hcontains). now apply IH.
    + apply dict_contains_false in Hcontains.
      rewrite (bool_decide_eq_false_2 _ Hcontains).
      destruct (validate_dependency_is_unique_cases d k p)
        as [[Hok Hfresh] | (dk & Hin & Hraise)].
      * rewrite Hok, (dict_set_fresh _ _ _ Hcontains).
        assert (Hnd' : NoDup (map snd (d ++ [(k, p)]))).
        { rewrite map_app. simpl. apply NoDup_app. split; [assumption|]. split.
          - intros x Hx Hx'. apply list_elem_of_singleton in Hx'. now subst.
          - apply NoDup_singleton. }
        specialize (IH (d ++ [(k, p)]) Hnd').
        rewrite keys_app in IH. simpl in IH. rewrite <- app_assoc in IH. simpl in IH.
        destruct IH as [IH | (key & dk & q & Hne & Hkey & Hdk & Hraise)]; [now left|].
        right. exists key, dk, q. repeat split; try assumption. now right.
      * rewrite Hraise. right. exists k, dk, p. repeat split.
        -- intros ->. apply Hcontains. eapply key_of_entry, Hin.
        -- left.
        -- apply elem_of_app. now left.
Qed.

Lemma add_dependencies_app (a b d : Dict Provide) :
  add_dependencies (a ++ b) d
  = match add_dependencies a d with
    | Ok d' => add_dependencies b d'
    | Raise e => Raise e
    end.
Proof.
  revert d. induction a as [|[k p] a IH]; intros d; simpl; [reflexivity|].
  destruct (dict_contains d k); [apply IH|].
  destruct (validate_dependency_is_unique d k p); [apply IH | reflexivity].
Qed.

Lemma merge_dependencies_concat (layers : list LayerView) (d : Dict Provide) :
  merge_dependencies layers d
  = add_dependencies
      (concat (map (fun layer => or_empty_dict (layer_dependencies layer)) layers)) d.
Proof.
  revert d. induction layers as [|layer layers IH]; intros d; simpl; [reflexivity|].
  rewrite add_dependencies_app.
  destruct (add_dependencies _ d); [apply IH | reflexivity].
Qed.

(** On a handler whose signature model is known and whose slot is sound, a
    call gives what the merge of the declarations gives. *)
Lemma resolve_dependencies_result (b : Handler) (sm : Any) :
  signature_model b = Some sm ->
  dependencies_memo_sound b ->
  fst (resolve_dependencies b) = add_dependencies (declarations b) [].
Proof.
  intros Hsig. unfold dependencies_memo_sound, resolve_dependencies. rewrite Hsig.
  rewrite merge_dependencies_concat. fold (declarations b).
  destruct (resolved_dependencies b) as [|memo]; intros Hsound.
  - now destruct (add_dependencies (declarations b) []).
  - now rewrite Hsound.
Qed.

(** In every sound state a returned mapping is the unshadowed
    declarations. *)
Lemma resolve_dependencies_sound (b : Handler) (d : Dict Provide) :
  dependencies_memo_sound b ->
  fst (resolve_dependencies b) = Ok d ->
  d = unshadowed (declarations b).
Proof.
  unfold dependencies_memo_sound, resolve_dependencies, unshadowed.
  destruct (signature_model b); [|discriminate].
  destruct (resolved_dependencies b) as [|memo]; rewrite merge_dependencies_concat;
    fold (declarations b); intros Hsound Hres.
  - destruct (add_dependencies_cases (declarations b) [] (NoDup_nil_2))
      as [[Hok _] | (key & dk & p & _ & _ & _ & Hraise)].
    + rewrite Hok in Hres. simpl in Hres. congruence.
    + rewrite Hraise in Hres. discriminate.
  - simpl in Hres. injection Hres as <-.
    destruct (add_dependencies_cases (declarations b) [] (NoDup_nil_2))
      as [[Hok _] | (key & dk & p & _ & _ & _ & Hraise)]; simpl in *; congruence.
Qed.

Lemma resolve_dependencies_keeps_sound (b : Handler) :
  dependencies_memo_sound b ->
  dependencies_memo_sound (snd (resolve_dependencies b)).
Proof.
  unfold dependencies_memo_sound, resolve_dependencies.
  destruct (signature_model b); [|auto].
  destruct (resolved_dependencies b) as [|memo] eqn:Hmemo.
  - intros _. destruct (merge_dependencies (ownership_layers b) []) eqn:Hmerge;
      cbn [snd resolved_dependencies set_resolved_dependencies].
    + exact Hmerge.
    + now rewrite Hmemo.
  - cbn [snd]. now rewrite Hmemo.
Qed.

(** The layer nearest to the node that declares a name gives the first
    declaration of that name. *)
Lemma dict_get_declarations (layers : list LayerView) (i : nat) (near : LayerView)
    (name : string) (p : Provide) :
  layers !! i = Some near ->
  dict_get (or_empty_dict (layer_dependencies near)) name = Some p ->
  (forall m layer, (m < i)%nat -> layers !! m = Some layer ->
     dict_get (or_empty_dict (layer_dependencies layer)) name = None) ->
  dict_get (concat (map (fun layer => or_empty_dict (layer_dependencies layer)) layers))
    name = Some p.
Proof.
  revert i. induction layers as [|layer layers IH]; intros i Hi Hnear Hnone.
  - destruct i; discriminate.
  - simpl. rewrite dict_get_app. destruct i as [|i]; simpl in Hi.
    + injection Hi as ->. now rewrite Hnear.
    + rewrite (Hnone 0%nat layer) by (simpl; auto; lia).
      apply (IH i); [assumption | assumption |].
      intros m l Hm Hl. apply (Hnone (S m) l); [lia | exact Hl].
Qed.

(** ** Memoisation of the dependencies *)

Lemma resolve_dependencies_memo (b : Handler) (sm : Any) (d : Dict Provide) :
  signature_model b = Some sm ->
  resolved_dependencies b = Resolved d ->
  resolve_dependencies b = (Ok d, b).
Proof.
  intros Hsig Hmemo. unfold resolve_dependencies. now rewrite Hsig, Hmemo.
Qed.

Lemma resolve_dependencies_stores (b : Handler) (d : Dict Provide) :
  fst (resolve_dependencies b) = Ok d ->
  resolved_dependencies (snd (resolve_dependencies b)) = Resolved d.
Proof.
  unfold resolve_dependencies. destruct (signature_model b); [|discriminate].
  destruct (resolved_dependencies b) as [|memo] eqn:Hmemo.
  - destruct (merge_dependencies (ownership_layers b) []); [|discriminate].
    cbn. congruence.
  - cbn. congruence.
Qed.

Lemma resolve_dependencies_twice (b : Handler) :
  resolve_dependencies (snd (resolve_dependencies b))
  = (fst (resolve_dependencies b), snd (resolve_dependencies b)).
Proof.
  destruct (resolve_dependencies b) as [r b1] eqn:Hres. cbn [fst snd].
  unfold resolve_dependencies in Hres.
  destruct (signature_model b) as [sm|] eqn:Hsig.
  - destruct (resolved_dependencies b) as [|memo] eqn:Hmemo.
    + destruct (merge_dependencies (ownership_layers b) []) as [d|e] eqn:Hmerge;
        injection Hres as <- <-.
      * now apply (resolve_dependencies_memo _ sm).
      * unfold resolve_dependencies. now rewrite Hsig, Hmemo, Hmerge.
    + injection Hres as <- <-. now apply (resolve_dependencies_memo _ sm).
  - injection Hres as <- <-. unfold resolve_dependencies. now rewrite Hsig.
Qed.

(** C4 (amended).  On a handler whose signature model is known and whose
    dependencies slot is sound, [resolve_dependencies] raises exactly when
    two different names have the same provider among the declarations that
    no nearer layer shadows; what it raises is then the configuration error
    whose message names two such keys.  If no two different names of the
    chain's declarations share a provider, it returns the unshadowed
    declarations. *)
Theorem alias_error_iff_unshadowed_aliased (b : Handler) (sm : Any) :
  signature_model b = Some sm ->
  dependencies_memo_sound b ->
  ((exists e, fst (resolve_dependencies b) = Raise e)
   <-> aliased (unshadowed (declarations b)))
  /\ (forall e, fst (resolve_dependencies b) = Raise e ->
      exists key dk p,
        key <> dk
        /\ (key, p) ∈ unshadowed (declarations b)
        /\ (dk, p) ∈ unshadowed (declarations b)
        /\ e = ImproperlyConfiguredException (already_defined_message key dk))
  /\ (~ aliased (declarations b) ->
      fst (resolve_dependencies b) = Ok (unshadowed (declarations b))).
Proof.
  intros Hsig Hsound. rewrite (resolve_dependencies_result b sm Hsig Hsound).
  unfold unshadowed.
  destruct (add_dependencies_cases (declarations b) [] (NoDup_nil_2))
    as [[Hok Hnd] | (key & dk & p & Hne & Hkey & Hdk & Hraise)];
    simpl in *.
  - rewrite Hok. repeat split.
    + intros [e He]. discriminate.
    + intros Halias. exfalso. eapply NoDup_providers_not_aliased; eassumption.
    + intros e He. discriminate.
  - rewrite Hraise. repeat split.
    + intros _. exists key, dk, p. auto.
    + intros _. eauto.
    + intros e He. injection He as <-. exists key, dk, p. auto.
    + intros Hnot. exfalso. apply Hnot. exists key, dk, p.
      split; [assumption|]. split; eapply unshadowed_from_subset; eassumption.
Qed.

(** A handler whose signature model is known and whose slot is sound gets
    a mapping exactly when no two different names share a provider among
    the unshadowed declarations, and the mapping is then these
    declarations. *)
Lemma resolve_dependencies_returns (b : Handler) (sm : Any) :
  signature_model b = Some sm ->
  dependencies_memo_sound b ->
  (~ aliased (unshadowed (declarations b)) ->
   fst (resolve_dependencies b) = Ok (unshadowed (declarations b)))
  /\ (forall d, fst (resolve_dependencies b) = Ok d ->
        ~ aliased (unshadowed (declarations b))).
Proof.
  intros Hsig Hsound. rewrite (resolve_dependencies_result b sm Hsig Hsound).
  unfold unshadowed.
  destruct (add_dependencies_cases (declarations b) [] (NoDup_nil_2))
    as [[Hok Hnd] | (key & dk & p & Hne & Hkey & Hdk & Hraise)];
    simpl in *.
  - rewrite Hok. split; [reflexivity|].
    intros d _. now apply NoDup_providers_not_aliased.
  - rewrite Hraise. split; [|discriminate].
    intros Hnot. exfalso. apply Hnot. exists key, dk, p. auto.
Qed.

(** C5.  Let two layers of a handler's chain declare one name, the nearer
    one being the layer nearest to the node that declares it, and let the
    dependencies slot be sound.  Every mapping that [resolve_dependencies]
    returns maps the name to the provider of the nearer layer, and not to a
    different provider declared farther away.  A mapping is returned, and
    stored, whenever the signature model is known and no two different
    names share a provider among the unshadowed declarations; in no other
    case is a mapping returned. *)
Theorem nearest_layer_dependency_wins (b : Handler)
    (i j : nat) (near far : LayerView) (name : string) (p_near p_far : Provide) :
  dependencies_memo_sound b ->
  ownership_layers b !! i = Some near ->
  ownership_layers b !! j = Some far ->
  (i < j)%nat ->
  dict_get (or_empty_dict (layer_dependencies near)) name = Some p_near ->
  dict_get (or_empty_dict (layer_dependencies far)) name = Some p_far ->
  (forall m layer, (m < i)%nat -> ownership_layers b !! m = Some layer ->
     dict_get (or_empty_dict (layer_dependencies layer)) name = None) ->
  (forall d, fst (resolve_dependencies b) = Ok d ->
     dict_get d name = Some p_near
     /\ (p_far <> p_near -> dict_get d name <> Some p_far))
  /\ (forall sm, signature_model b = Some sm ->
      ~ aliased (unshadowed (declarations b)) ->
      exists d,
        fst (resolve_dependencies b) = Ok d
        /\ resolved_dependencies (snd (resolve_dependencies b)) = Resolved d
        /\ dict_get d name = Some p_near
        /\ (p_far <> p_near -> dict_get d name <> Some p_far))
  /\ ((exists d, fst (resolve_dependencies b) = Ok d)
      <-> ((exists sm, signature_model b = Some sm)
           /\ ~ aliased (unshadowed (declarations b)))).
Proof.
  intros Hsound Hi Hj Hlt Hnear Hfar Hnone.
  assert (Hwins : forall d, fst (resolve_dependencies b) = Ok d ->
            dict_get d name = Some p_near
            /\ (p_far <> p_near -> dict_get d name <> Some p_far)).
  { intros d Hres.
    assert (Hget : dict_get d name = Some p_near).
    { rewrite (resolve_dependencies_sound b d Hsound Hres), dict_get_unshadowed.
      unfold declarations.
      apply (dict_get_declarations (ownership_layers b) i near); assumption. }
    split; [exact Hget | congruence]. }
  split; [exact Hwins|]. split.
  - intros sm Hsig Hnot.
    destruct (resolve_dependencies_returns b sm Hsig Hsound) as [Hreturns _].
    specialize (Hreturns Hnot). exists (unshadowed (declarations b)).
    split; [exact Hreturns|].
    split; [now apply resolve_dependencies_stores|].
    now apply Hwins.
  - split.
    + intros [d Hres].
      destruct (signature_model b) as [sm|] eqn:Hsig.
      * split; [now exists sm|].
        now apply (proj2 (resolve_dependencies_returns b sm Hsig Hsound) d).
      * unfold resolve_dependencies in Hres. rewrite Hsig in Hres. discriminate Hres.
    + intros [[sm Hsig] Hnot]. exists (unshadowed (declarations b)).
      now apply (proj1 (resolve_dependencies_returns b sm Hsig Hsound)).
Qed.

End DependencyProperties.

(** C4 (as stated) fails: the router declares the provider [shared] under
    the names [a] and [b]; the handler overrides [a], so the router's [a] is
    never looked at and [b] is accepted. *)
Lemma shadowed_alias_is_accepted :
  aliased (declarations Examples.overriding_handler)
  /\ fst (resolve_dependencies Examples.overriding_handler)
     = Ok [("a", "own"); ("b", "shared")]
  /\ ~ (aliased (declarations Examples.overriding_handler) ->
        exists msg, fst (resolve_dependencies Examples.overriding_handler)
                    = Raise (ImproperlyConfiguredException msg)).
Proof.
  assert (Halias : aliased (declarations Examples.overriding_handler)).
  { exists "a", "b", "shared". split; [discriminate|].
    split; vm_compute; repeat constructor. }
  split; [exact Halias|]. split; [reflexivity|].
  intros Himp. destruct (Himp Halias) as [msg Hmsg]. discriminate Hmsg.
Qed.

Lemma alias_error_iff_unshadowed_aliased_witness :
  (exists e, fst (resolve_dependencies Examples.aliasing_handler) = Raise e)
  /\ fst (resolve_dependencies Examples.aliasing_handler)
     = Raise (ImproperlyConfiguredException (already_defined_message "b" "a")).
Proof.
  destruct (alias_error_iff_unshadowed_aliased Examples.aliasing_handler
              "SignatureModel" eq_refl I) as (Hiff & Hnames & _).
  split; [|reflexivity].
  apply Hiff. exists "a", "b", "shared". split; [discriminate|].
  split; vm_compute; repeat constructor.
Defined.

Lemma nearest_layer_dependency_wins_witness :
  exists d,
    fst (resolve_dependencies Examples.db_handler) = Ok d
    /\ resolved_dependencies (snd (resolve_dependencies Examples.db_handler)) = Resolved d
    /\ dict_get d "db" = Some "handler_db"
    /\ ("router_db" <> "handler_db" -> dict_get d "db" <> Some "router_db").
Proof.
  assert (Hlayers : (forall m layer, (m < 0)%nat ->
                       ownership_layers Examples.db_handler !! m = Some layer ->
                       dict_get (or_empty_dict (layer_dependencies layer)) "db" = None))
    by (intros m layer Hm; lia).
  destruct (nearest_layer_dependency_wins Examples.db_handler
              0 1 (layer_of_base Examples.db_handler) (layer_of_owner Examples.db_router)
              "db" "handler_db" "router_db" I eq_refl eq_refl (Nat.lt_0_1) eq_refl eq_refl
              Hlayers) as (_ & Hreturns & _).
  apply (Hreturns "SignatureModel" eq_refl).
  apply NoDup_providers_not_aliased. vm_compute. apply NoDup_singleton.
Defined.

Section ResolverProperties.
Context {Guard Provide Any : Type} `{EqDecision Provide}.

Local Abbreviation Handler := (@BaseRouteHandler Guard Provide Any).
Local Abbreviation HTTPHandler := (@HTTPRouteHandler Guard Provide Any).
Local Abbreviation LayerView := (@Layer Guard Provide Any).

(** ** Entries that are not shadowed have distinct names *)

Lemma NoDup_keys_unshadowed_from {V} (decls : Dict V) (seen : list string) :
  NoDup seen -> NoDup (seen ++ keys (unshadowed_from seen decls)).
Proof.
  revert seen. induction decls as [|[k v] decls IH]; intros seen Hnd; simpl.
  - now rewrite app_nil_r.
  - destruct (decide (k ∈ seen)) as [Hin|Hnin].
    + rewrite (bool_decide_eq_true_2 _ Hin). now apply IH.
    + rewrite (bool_decide_eq_false_2 _ Hnin). simpl.
      assert (Hnd' : NoDup (seen ++ [k])).
      { apply NoDup_app. split; [assumption|]. split; [|apply NoDup_singleton].
        intros x Hx Hx'. apply list_elem_of_singleton in Hx'. now subst. }
      specialize (IH _ Hnd'). now rewrite <- app_assoc in IH.
Qed.

Lemma NoDup_keys_unshadowed {V} (decls : Dict V) : NoDup (keys (unshadowed decls)).
Proof. apply (NoDup_keys_unshadowed_from decls [] (NoDup_nil_2)). Qed.

(** ** Response headers *)

Lemma add_missing_unshadowed {V} (items headers : Dict V) :
  add_missing items headers = headers ++ unshadowed_from (keys headers) items.
Proof.
  revert headers. induction items as [|[k v] items IH]; intros headers; simpl.
  - now rewrite app_nil_r.
  - destruct (dict_contains headers k) eqn:Hcontains.
    + apply dict_contains_keys in Hcontains.
      now rewrite (bool_decide_eq_true_2 _ Hcontains).
    + apply dict_contains_false in Hcontains.
      rewrite (bool_decide_eq_false_2 _ Hcontains), (dict_set_fresh _ _ _ Hcontains).
      rewrite IH, keys_app, <- app_assoc. reflexivity.
Qed.

Lemma add_missing_app {V} (a b headers : Dict V) :
  add_missing (a ++ b) headers = add_missing b (add_missing a headers).
Proof.
  revert headers. induction a as [|[k v] a IH]; intros headers; simpl; [reflexivity|].
  destruct (dict_contains headers k); apply IH.
Qed.

Lemma fold_add_missing (layers : list LayerView) (headers : Dict (@ResponseHeader Any)) :
  fold_left
    (fun headers layer =>
       add_missing (or_empty_dict (layer_response_headers layer)) headers)
    layers headers
  = add_missing
      (concat (map (fun layer => or_empty_dict (layer_response_headers layer)) layers))
      headers.
Proof.
  revert headers. induction layers as [|layer layers IH]; intros headers; simpl.
  - reflexivity.
  - now rewrite IH, add_missing_app.
Qed.

(** The first call keeps, for every name, the declaration nearest to the
    node. *)
Lemma resolve_response_headers_fresh (h : HTTPHandler) :
  resolved_headers h = _empty ->
  fst (resolve_response_headers h) = unshadowed (header_declarations h).
Proof.
  intros Hempty. unfold resolve_response_headers. rewrite Hempty. cbn [fst].
  unfold merge_headers. rewrite fold_add_missing, add_missing_unshadowed.
  reflexivity.
Qed.

(** ** Each resolver reads and stores its slot *)

Lemma resolve_guards_reads_memo :
  reads_memo (@resolve_guards Guard Provide Any) resolved_guards.
Proof. intros b gs. apply resolve_guards_memo. Qed.

Lemma resolve_guards_stores_memo :
  stores_memo (@resolve_guards Guard Provide Any) resolved_guards.
Proof. intros b. apply resolve_guards_stores. Qed.

Lemma resolve_response_headers_reads_memo :
  reads_memo (@resolve_response_headers Guard Provide Any) resolved_headers.
Proof. intros h a Hmemo. unfold resolve_response_headers. now rewrite Hmemo. Qed.

Lemma resolve_response_headers_stores_memo :
  stores_memo (@resolve_response_headers Guard Provide Any) resolved_headers.
Proof.
  intros h. unfold resolve_response_headers.
  destruct (resolved_headers h) eqn:Hmemo; simpl; auto.
Qed.

Lemma resolve_response_class_reads_memo :
  reads_memo (@resolve_response_class Guard Provide Any) resolved_response_class.
Proof. intros h a Hmemo. unfold resolve_response_class. now rewrite Hmemo. Qed.

Lemma resolve_response_class_stores_memo :
  stores_memo (@resolve_response_class Guard Provide Any) resolved_response_class.
Proof.
  intros h. unfold resolve_response_class.
  destruct (resolved_response_class h) eqn:Hmemo; simpl; auto.
Qed.

Lemma resolve_before_request_reads_memo :
  reads_memo (@resolve_before_request Guard Provide Any) resolved_before_request.
Proof. intros h a Hmemo. unfold resolve_before_request. now rewrite Hmemo. Qed.

Lemma resolve_before_request_stores_memo :
  stores_memo (@resolve_before_request Guard Provide Any) resolved_before_request.
Proof.
  intros h. unfold resolve_before_request.
  destruct (resolved_before_request h) eqn:Hmemo; simpl; auto.
Qed.

Lemma resolve_after_request_reads_memo :
  reads_memo (@resolve_after_request Guard Provide Any) resolved_after_request.
Proof. intros h a Hmemo. unfold resolve_after_request. now rewrite Hmemo. Qed.

Lemma resolve_after_request_stores_memo :
  stores_memo (@resolve_after_request Guard Provide Any) resolved_after_request.
Proof.
  intros h. unfold resolve_after_request.
  destruct (resolved_after_request h) eqn:Hmemo; simpl; auto.
Qed.

(** The inherited resolvers on an HTTP handler. *)
Lemma http_resolve_guards_twice (h : HTTPHandler) :
  second_call_same http_resolve_guards h.
Proof.
  unfold second_call_same, http_resolve_guards.
  pose proof (resolve_guards_twice (base h)) as Htwice.
  destruct (resolve_guards (base h)) as [gs b1]. cbn [fst snd base set_base] in *.
  now rewrite Htwice.
Qed.

Lemma http_resolve_dependencies_twice (h : HTTPHandler) :
  second_call_same http_resolve_dependencies h.
Proof.
  unfold second_call_same, http_resolve_dependencies.
  pose proof (resolve_dependencies_twice (base h)) as Htwice.
  destruct (resolve_dependencies (base h)) as [r b1]. cbn [fst snd base set_base] in *.
  now rewrite Htwice.
Qed.

Lemma memo_second_call_same {S A} (resolver : S -> A * S) (slot : S -> Memo A) :
  reads_memo resolver slot -> stores_memo resolver slot ->
  forall s, second_call_same resolver s.
Proof. intros Hreads Hstores s. apply Hreads, Hstores. Qed.

(** C9.  Each of the six resolvers, called a second time on the handler
    the first call left, returns the result of the first call and leaves
    the handler as it is; the value comes from the slot, which a call on a
    resolved handler returns without looking at the layers.  A failed
    [resolve_dependencies] fails again in the same way.  The same holds
    for the two inherited resolvers run on an HTTP handler.  The merged
    headers and dependencies hold every name once. *)
Theorem resolvers_are_memoized (b : Handler) (h : HTTPHandler) :
  (second_call_same resolve_guards b
   /\ stores_memo (@resolve_guards Guard Provide Any) resolved_guards
   /\ reads_memo (@resolve_guards Guard Provide Any) resolved_guards)
  /\ (second_call_same resolve_dependencies b
      /\ (forall d, fst (resolve_dependencies b) = Ok d ->
            resolved_dependencies (snd (resolve_dependencies b)) = Resolved d)
      /\ (forall (b' : Handler) (sm : Any) (d : Dict Provide),
            signature_model b' = Some sm ->
            resolved_dependencies b' = Resolved d ->
            resolve_dependencies b' = (Ok d, b')))
  /\ (second_call_same resolve_response_headers h
      /\ stores_memo (@resolve_response_headers Guard Provide Any) resolved_headers
      /\ reads_memo (@resolve_response_headers Guard Provide Any) resolved_headers)
  /\ (second_call_same resolve_response_class h
      /\ stores_memo (@resolve_response_class Guard Provide Any) resolved_response_class
      /\ reads_memo (@resolve_response_class Guard Provide Any) resolved_response_class)
  /\ (second_call_same resolve_before_request h
      /\ stores_memo (@resolve_before_request Guard Provide Any) resolved_before_request
      /\ reads_memo (@resolve_before_request Guard Provide Any) resolved_before_request)
  /\ (second_call_same resolve_after_request h
      /\ stores_memo (@resolve_after_request Guard Provide Any) resolved_after_request
      /\ reads_memo (@resolve_after_request Guard Provide Any) resolved_after_request)
  /\ (second_call_same http_resolve_guards h
      /\ second_call_same http_resolve_dependencies h)
  /\ (resolved_headers h = _empty ->
      NoDup (keys (fst (resolve_response_headers h))))
  /\ (dependencies_memo_sound b ->
      forall d, fst (resolve_dependencies b) = Ok d -> NoDup (keys d)).
Proof.
  repeat split;
    eauto using memo_second_call_same,
      resolve_guards_reads_memo, resolve_guards_stores_memo,
      resolve_response_headers_reads_memo, resolve_response_headers_stores_memo,
      resolve_response_class_reads_memo, resolve_response_class_stores_memo,
      resolve_before_request_reads_memo, resolve_before_request_stores_memo,
      resolve_after_request_reads_memo, resolve_after_request_stores_memo.
  - apply resolve_dependencies_twice.
  - apply resolve_dependencies_stores.
  - intros b' sm d. apply resolve_dependencies_memo.
  - apply http_resolve_guards_twice.
  - apply http_resolve_dependencies_twice.
  - intros Hempty. rewrite resolve_response_headers_fresh by assumption.
    apply NoDup_keys_unshadowed.
  - intros Hsound d Hres. rewrite (resolve_dependencies_sound b d Hsound Hres).
    apply NoDup_keys_unshadowed.
Qed.

End ResolverProperties.

Section ConstructionProperties.
Context {Guard Provide Any : Type} `{EqDecision Provide}.
Variable normalize_path : string -> string.
Variable Method : list string.

Local Abbreviation HTTPHandler := (@HTTPRouteHandler Guard Provide Any).
Local Abbreviation Arguments_ := (@HTTPArguments Guard Provide Any).

(** ** Method values *)

Lemma method_eq_refl (v : MethodValue) : method_eq v v = true.
Proof. unfold method_eq. now apply bool_decide_eq_true_2. Qed.

Lemma method_eq_value (m : HttpMethod) (w : MethodValue) :
  method_eq (Str (HttpMethod_value m)) w = method_eq (Member m) w.
Proof. reflexivity. Qed.

Lemma member_truthy (m : HttpMethod) : method_truthy (Member m) = true.
Proof. now destruct m. Qed.

(** The status code picked for a stored method depends on its characters
    only. *)
Lemma status_code_for_scalar (v : MethodValue) :
  status_code_for (StoredScalar v) = status_code_for (StoredScalar (Str (method_str v))).
Proof. reflexivity. Qed.

Lemma status_code_for_member (m : HttpMethod) :
  status_code_for (StoredScalar (Member m)) = documented_status_code m.
Proof. now destruct m. Qed.

(** ** Validation looks at the method slot through ["GET" in http_methods] *)

Lemma http_methods_set_base (b : @BaseRouteHandler Guard Provide Any) (h : HTTPHandler) :
  http_methods (set_base b h) = http_methods h.
Proof. reflexivity. Qed.

Lemma http_methods_set_media_type (v : MediaTypeValue) (h : HTTPHandler) :
  http_methods (set_media_type v h) = http_methods h.
Proof. reflexivity. Qed.

Lemma validation_with_http_method (h : HTTPHandler) (m1 m2 : StoredMethod)
    (f : AnyCallable) :
  method_in "GET" (http_methods (with_http_method m1 h))
  = method_in "GET" (http_methods (with_http_method m2 h)) ->
  fst (HTTPRouteHandler_call f (with_http_method m1 h))
  = fst (HTTPRouteHandler_call f (with_http_method m2 h)).
Proof.
  intros Hget. destruct f as [[annotation params]].
  unfold HTTPRouteHandler_call, http_validate_handler_function,
    base_validate_handler_function, check_class_annotation,
    bind, get_self, put_self, ret, raise.
  cbn -[method_in REDIRECT_STATUS_CODES media_type_in_json_html has_parameter] in *.
  destruct annotation as [| |[is_redirect is_file|]|];
    cbn -[method_in REDIRECT_STATUS_CODES media_type_in_json_html has_parameter];
    try reflexivity;
    repeat (match goal with
            | |- context [if ?c then _ else _] =>
                lazymatch c with
                | context [method_in] => fail
                | _ => destruct c eqn:?
                end
            end;
            cbn -[method_in REDIRECT_STATUS_CODES media_type_in_json_html has_parameter]);
    rewrite ?http_methods_set_media_type, ?http_methods_set_base, ?Hget;
    try reflexivity;
    repeat (match goal with
            | |- context [if ?c then _ else _] => destruct c eqn:?
            end; cbn);
    reflexivity.
Qed.

(** ** Argument validation *)

Lemma HttpMethod_of_value_Some (s : string) (m : HttpMethod) :
  HttpMethod_of_value s = Some m -> HttpMethod_value m = s.
Proof.
  unfold HttpMethod_of_value. intros Hfind.
  apply find_some in Hfind as [_ Hvalue]. now apply bool_decide_eq_true_1 in Hvalue.
Qed.

Lemma HttpMethod_of_value_value (m : HttpMethod) :
  HttpMethod_of_value (HttpMethod_value m) = Some m.
Proof. now destruct m. Qed.

Lemma validate_method_member (m : HttpMethod) :
  validate_method Method (Member m) = Ok (Member m).
Proof. reflexivity. Qed.

Lemma validate_method_value (m : HttpMethod) :
  validate_method Method (Str (HttpMethod_value m)) = Ok (Member m).
Proof. unfold validate_method. now rewrite HttpMethod_of_value_value. Qed.

(** What validation lets through is a member, or a string of [Method] that
    is the value of no member; either way it reads as the value passed. *)
Lemma validate_method_cases (v v' : MethodValue) :
  validate_method Method v = Ok v' ->
  (exists m, v' = Member m /\ method_str v = HttpMethod_value m)
  \/ (exists s, v = Str s /\ v' = Str s /\ s ∈ Method /\ HttpMethod_of_value s = None).
Proof.
  destruct v as [m|s]; cbn [validate_method].
  - intros Hok. injection Hok as <-. left. now exists m.
  - destruct (HttpMethod_of_value s) as [m|] eqn:Hvalue.
    + intros Hok. injection Hok as <-. left. exists m. split; [reflexivity|].
      symmetry. now apply HttpMethod_of_value_Some.
    + destruct (bool_decide (s ∈ Method)) eqn:Hin; [|discriminate].
      intros Hok. injection Hok as <-. right. exists s.
      apply bool_decide_eq_true_1 in Hin. now repeat split.
Qed.

Lemma validate_method_str (v v' : MethodValue) :
  validate_method Method v = Ok v' -> method_str v' = method_str v.
Proof.
  intros Hok. apply validate_method_cases in Hok as [(m & -> & Hm)|(s & -> & -> & _)];
    [now rewrite Hm | reflexivity].
Qed.

Lemma validate_method_truthy (v v' : MethodValue) :
  EmptyString ∉ Method ->
  validate_method Method v = Ok v' -> method_truthy v' = true.
Proof.
  intros Hempty Hok.
  apply validate_method_cases in Hok as [(m & -> & _)|(s & _ & -> & Hin & _)].
  - apply member_truthy.
  - unfold method_truthy. cbn [method_str]. apply negb_true_iff.
    apply bool_decide_eq_false_2. intros ->. contradiction.
Qed.

Lemma validate_methods_Forall2 (vs vs' : list MethodValue) :
  validate_methods Method vs = Ok vs' <->
  Forall2 (fun v v' => validate_method Method v = Ok v') vs vs'.
Proof.
  revert vs'. induction vs as [|v vs IH]; intros vs'; cbn [validate_methods].
  - split.
    + intros Hok. injection Hok as <-. constructor.
    + intros Hall. now inversion Hall.
  - destruct (validate_method Method v) as [v1|e] eqn:Hv.
    + destruct (validate_methods Method vs) as [vs1|e] eqn:Hvs.
      * split.
        -- intros Hok. injection Hok as <-. constructor; [assumption|]. now apply IH.
        -- intros Hall. inversion Hall as [|? v2 ? vs2 Hhead Htail]; subst.
           apply IH in Htail. congruence.
      * split; [discriminate|].
        intros Hall. inversion Hall as [|? v2 ? vs2 Hhead Htail]; subst.
        apply IH in Htail. congruence.
    + split; [discriminate|].
      intros Hall. inversion Hall as [|? v2 ? vs2 Hhead Htail]; subst. congruence.
Qed.

(** ** Construction *)

Lemma HTTPRouteHandler_init_truthy (a a' : MethodArg) (code : option Z) (args : Arguments_) :
  validate_http_method Method (Some a) = Ok (Some a') ->
  method_arg_truthy (Some a') = true ->
  HTTPRouteHandler_init normalize_path Method (Some a) code args
  = Ok (mkHTTP
          (BaseRouteHandler_init normalize_path (arg_path args)
             (arg_dependencies args) (arg_guards args) (arg_opt args))
          (store_http_method a')
          (default_status_code code (store_http_method a'))
          (arg_after_request args) (arg_background_tasks args)
          (arg_before_request args) (validate_media_type (arg_media_type args))
          (arg_response_class args) (arg_response_headers args)
          _empty _empty _empty _empty).
Proof.
  intros Hvalid Htruthy. unfold HTTPRouteHandler_init, HTTPRouteHandler_init_body.
  now rewrite Hvalid, Htruthy.
Qed.

Lemma HTTPRouteHandler_init_invalid (a : option MethodArg) (e : Exception)
    (code : option Z) (args : Arguments_) :
  validate_http_method Method a = Raise e ->
  HTTPRouteHandler_init (Guard:=Guard) (Provide:=Provide) normalize_path Method a code args
  = Raise e.
Proof. intros Hvalid. unfold HTTPRouteHandler_init. now rewrite Hvalid. Qed.

(** C3.  A method value that argument validation refuses is refused alike
    as a scalar and as a list of one.  For a value that validation accepts,
    the handler made from the list of that one value and the handler made
    from the value itself are both constructed; their [http_method] slots
    hold the validated value, as its string in the one and as it is in the
    other, and compare equal; their [http_methods] lists compare equal item
    by item and answer every membership test alike, their status codes are
    equal, every other slot is the same, and validation of any function
    gives the same outcome. *)
Theorem singleton_list_as_scalar (v : MethodValue) (code : option Z) (args : Arguments_) :
  EmptyString ∉ Method ->
  match validate_method Method v with
  | Raise e =>
      HTTPRouteHandler_init (Guard:=Guard) (Provide:=Provide) normalize_path Method
        (Some (Scalar v)) code args = Raise e
      /\ HTTPRouteHandler_init (Guard:=Guard) (Provide:=Provide) normalize_path Method
           (Some (MethodList [v])) code args = Raise e
  | Ok v' =>
      exists h_scalar h_list : HTTPHandler,
        HTTPRouteHandler_init normalize_path Method (Some (Scalar v)) code args
        = Ok h_scalar
        /\ HTTPRouteHandler_init normalize_path Method (Some (MethodList [v])) code args
           = Ok h_list
        /\ http_method h_scalar = StoredScalar (Str (method_str v'))
        /\ http_method h_list = StoredScalar v'
        /\ stored_method_eq (http_method h_scalar) (http_method h_list) = true
        /\ Forall2 (fun x y => method_eq x y = true)
             (http_methods h_scalar) (http_methods h_list)
        /\ (forall name, method_in name (http_methods h_scalar)
                         = method_in name (http_methods h_list))
        /\ status_code h_scalar = status_code h_list
        /\ h_list = with_http_method (StoredScalar v') h_scalar
        /\ (forall f, fst (HTTPRouteHandler_call f h_scalar)
                      = fst (HTTPRouteHandler_call f h_list))
  end.
Proof.
  intros Hempty. destruct (validate_method Method v) as [v'|e] eqn:Hvalid.
  - pose proof (validate_method_truthy v v' Hempty Hvalid) as Htruthy.
    rewrite (HTTPRouteHandler_init_truthy (Scalar v) (Scalar v'))
      by (cbn [validate_http_method method_arg_truthy]; now rewrite ?Hvalid).
    rewrite (HTTPRouteHandler_init_truthy (MethodList [v]) (MethodList [v']))
      by (cbn [validate_http_method validate_methods method_arg_truthy];
          now rewrite ?Hvalid).
    eexists. eexists. split; [reflexivity|]. split; [reflexivity|].
    assert (Hslot : store_http_method (Scalar v') = StoredScalar (Str (method_str v')))
      by now destruct v'.
    assert (Hlist : store_http_method (MethodList [v']) = StoredScalar v')
      by reflexivity.
    rewrite Hslot, Hlist. cbn [http_method status_code http_methods].
    split; [reflexivity|]. split; [reflexivity|].
    split; [exact (method_eq_refl v')|].
    split; [constructor; [exact (method_eq_refl v') | constructor]|].
    split; [intros name; reflexivity|].
    split; [reflexivity|].
    split; [reflexivity|].
    intros f.
    match goal with
    | |- fst (HTTPRouteHandler_call f ?h1) = fst (HTTPRouteHandler_call f ?h2) =>
        change h1 with (with_http_method (StoredScalar (Str (method_str v'))) h1);
        change h2 with (with_http_method (StoredScalar v') h1)
    end.
    now apply validation_with_http_method.
  - split; apply HTTPRouteHandler_init_invalid;
      cbn [validate_http_method validate_methods]; now rewrite Hvalid.
Qed.

(** C6 (amended).  Without a status code a handler for one method gets the
    documented default, however the method is written; a status code other
    than zero is taken as it is, whatever the method and for every method
    argument that construction accepts; a status code of zero counts as
    none. *)
Theorem status_code_defaults (m : HttpMethod) (args : Arguments_) :
  (forall a,
     a ∈ [Scalar (Member m); Scalar (Str (HttpMethod_value m));
          MethodList [Member m]; MethodList [Str (HttpMethod_value m)]] ->
     exists h : HTTPHandler,
       HTTPRouteHandler_init normalize_path Method (Some a) None args = Ok h
       /\ status_code h = documented_status_code m)
  /\ (forall a code,
        a ∈ [Scalar (Member m); Scalar (Str (HttpMethod_value m));
             MethodList [Member m]; MethodList [Str (HttpMethod_value m)]] ->
        code <> 0 ->
        exists h : HTTPHandler,
          HTTPRouteHandler_init normalize_path Method (Some a) (Some code) args = Ok h
          /\ status_code h = code)
  /\ (forall a a' code,
        validate_http_method Method (Some a) = Ok (Some a') ->
        method_arg_truthy (Some a') = true -> code <> 0 ->
        exists h : HTTPHandler,
          HTTPRouteHandler_init normalize_path Method (Some a) (Some code) args = Ok h
          /\ status_code h = code)
  /\ (forall a,
        HTTPRouteHandler_init (Guard:=Guard) (Provide:=Provide) normalize_path Method
          (Some a) (Some 0) args
        = HTTPRouteHandler_init normalize_path Method (Some a) None args).
Proof.
  assert (Hforms : forall a,
            a ∈ [Scalar (Member m); Scalar (Str (HttpMethod_value m));
                 MethodList [Member m]; MethodList [Str (HttpMethod_value m)]] ->
            exists a', validate_http_method Method (Some a) = Ok (Some a')
                       /\ method_arg_truthy (Some a') = true
                       /\ status_code_for (store_http_method a')
                          = documented_status_code m).
  { intros a Hin.
    repeat (apply elem_of_cons in Hin as [->|Hin]);
      [exists (Scalar (Member m)) | exists (Scalar (Member m))
       | exists (MethodList [Member m]) | exists (MethodList [Member m]) | ];
      [| | | | now apply elem_of_nil in Hin];
      cbn [validate_http_method validate_methods];
      rewrite ?validate_method_value, ?validate_method_member;
      (split; [reflexivity|]); now destruct m. }
  assert (Hgiven : forall a a' code,
            validate_http_method Method (Some a) = Ok (Some a') ->
            method_arg_truthy (Some a') = true -> code <> 0 ->
            exists h : HTTPHandler,
              HTTPRouteHandler_init normalize_path Method (Some a) (Some code) args = Ok h
              /\ status_code h = code).
  { intros a a' code Hvalid Htruthy Hcode.
    rewrite (HTTPRouteHandler_init_truthy a a') by assumption.
    eexists. split; [reflexivity|]. cbn [status_code default_status_code].
    destruct (code =? 0)%Z eqn:Hz; [|reflexivity]. apply Z.eqb_eq in Hz. contradiction. }
  split; [|split; [|split]].
  - intros a Hin. destruct (Hforms a Hin) as (a' & Hvalid & Htruthy & Hcode).
    rewrite (HTTPRouteHandler_init_truthy a a') by assumption.
    eexists. split; [reflexivity|]. exact Hcode.
  - intros a code Hin Hcode. destruct (Hforms a Hin) as (a' & Hvalid & Htruthy & _).
    now apply (Hgiven a a').
  - exact Hgiven.
  - intros a. unfold HTTPRouteHandler_init.
    now destruct (validate_http_method Method (Some a)).
Qed.

End ConstructionProperties.

Lemma method_literals_not_empty : EmptyString ∉ Examples.method_literals.
Proof.
  intros Hin. repeat (apply elem_of_cons in Hin as [Hin|Hin]; [discriminate|]).
  now apply elem_of_nil in Hin.
Qed.

Lemma singleton_list_as_scalar_witness :
  exists h_scalar h_list : @HTTPRouteHandler string string string,
    HTTPRouteHandler_init id Examples.method_literals (Some (Scalar (Str "POST"))) None
      Examples.plain_arguments = Ok h_scalar
    /\ HTTPRouteHandler_init id Examples.method_literals (Some (MethodList [Str "POST"]))
         None Examples.plain_arguments = Ok h_list
    /\ http_method h_scalar = StoredScalar (Str "POST")
    /\ http_method h_list = StoredScalar (Member POST)
    /\ status_code h_scalar = 201
    /\ status_code h_list = 201.
Proof.
  pose proof (singleton_list_as_scalar (Guard:=string) (Provide:=string) id
                Examples.method_literals (Str "POST") None Examples.plain_arguments
                method_literals_not_empty) as Hboth.
  change (validate_method Examples.method_literals (Str "POST"))
    with (Ok (Member POST) : Result MethodValue) in Hboth.
  cbv beta iota in Hboth.
  destruct Hboth as (h_scalar & h_list & Hscalar & Hlist & Hslot & Hslot' & _).
  exists h_scalar, h_list. split; [exact Hscalar|]. split; [exact Hlist|].
  split; [exact Hslot|]. split; [exact Hslot'|].
  vm_compute in Hscalar, Hlist.
  injection Hscalar as <-. injection Hlist as <-. split; reflexivity.
Defined.

(** C6 (as stated) fails: a POST handler that is given the status code 0
    gets 201. *)
Lemma explicit_zero_status_code_is_dropped :
  exists h : @HTTPRouteHandler string string string,
    HTTPRouteHandler_init id Examples.method_literals (Some (Scalar (Member POST)))
      (Some 0) Examples.plain_arguments = Ok h
    /\ status_code h = 201
    /\ status_code h <> 0.
Proof. eexists. split; [reflexivity|]. split; [reflexivity | discriminate]. Qed.

Lemma status_code_defaults_witness :
  (exists h : @HTTPRouteHandler string string string,
     HTTPRouteHandler_init id Examples.method_literals (Some (Scalar (Member DELETE)))
       None Examples.plain_arguments = Ok h
     /\ status_code h = 204)
  /\ (exists h : @HTTPRouteHandler string string string,
        HTTPRouteHandler_init id Examples.method_literals
          (Some (MethodList [Str "DELETE"])) (Some 202) Examples.plain_arguments = Ok h
        /\ status_code h = 202)
  /\ (exists h : @HTTPRouteHandler string string string,
        HTTPRouteHandler_init id Examples.method_literals
          (Some (MethodList [Str "GET"; Str "HEAD"])) (Some 202)
          Examples.plain_arguments = Ok h
        /\ status_code h = 202).
Proof.
  destruct (status_code_defaults (Guard:=string) (Provide:=string) id
              Examples.method_literals DELETE Examples.plain_arguments)
    as (Hdefault & Hforms & Hgiven & _).
  split; [|split].
  - apply (Hdefault (Scalar (Member DELETE))). left.
  - apply (Hforms (MethodList [Str "DELETE"]) 202); [|lia].
    right. right. right. left.
  - apply (Hgiven (MethodList [Str "GET"; Str "HEAD"])
             (MethodList [Member GET; Str "HEAD"]) 202);
      [reflexivity | reflexivity | lia].
Defined.

Section ValidationProperties.
Context {Guard Provide Any : Type} `{EqDecision Provide}.
Local Set Warnings "-clear-no-such-hyp".

Local Abbreviation Handler := (@BaseRouteHandler Guard Provide Any).
Local Abbreviation HTTPHandler := (@HTTPRouteHandler Guard Provide Any).

Lemma has_parameter_true (sig : Signature) (name : string) :
  has_parameter sig name = true <-> name ∈ parameters sig.
Proof. unfold has_parameter. apply bool_decide_eq_true. Qed.

Lemma has_parameter_false (sig : Signature) (name : string) :
  has_parameter sig name = false <-> name ∉ parameters sig.
Proof. unfold has_parameter. apply bool_decide_eq_false. Qed.

(** C8.  Applying a websocket handler to a function fails exactly when the
    function has no parameter [socket], or has a parameter [request] or
    [data], or its return annotation is not [None]; every failure is a
    configuration error, and a function with [socket], without [request]
    and [data], and annotated [None] is accepted. *)
Theorem websocket_validation (b : Handler) (f : AnyCallable) :
  ((exists e, fst (WebsocketRouteHandler_call f b) = Raise e)
   <-> (("socket" ∉ parameters (Signature_from_callable f))
        \/ ("request" ∈ parameters (Signature_from_callable f))
        \/ ("data" ∈ parameters (Signature_from_callable f))
        \/ (return_annotation (Signature_from_callable f) <> None_annotation)))
  /\ (forall e, fst (WebsocketRouteHandler_call f b) = Raise e ->
        exists detail, e = ImproperlyConfiguredException detail)
  /\ (fst (WebsocketRouteHandler_call f b) = Ok tt
      <-> (("socket" ∈ parameters (Signature_from_callable f))
           /\ ("request" ∉ parameters (Signature_from_callable f))
           /\ ("data" ∉ parameters (Signature_from_callable f))
           /\ (return_annotation (Signature_from_callable f) = None_annotation))).
Proof.
  unfold WebsocketRouteHandler_call, websocket_validate_handler_function,
    base_validate_handler_function.
  cbn [fst fn set_fn].
  rewrite <- !has_parameter_true.
  destruct (return_annotation (Signature_from_callable f));
    destruct (has_parameter (Signature_from_callable f) "socket");
    destruct (has_parameter (Signature_from_callable f) "request");
    destruct (has_parameter (Signature_from_callable f) "data");
    cbn; naive_solver.
Qed.

(** ** HTTP validation of a function annotated with a redirect class *)

Lemma redirect_annotation_validation (h : HTTPHandler) (f : AnyCallable) (is_file : bool) :
  return_annotation (Signature_from_callable f) = ClassObject (Class true is_file) ->
  fst (HTTPRouteHandler_call f h)
  = if bool_decide (status_code h ∈ REDIRECT_STATUS_CODES)
    then if has_parameter (Signature_from_callable f) "socket"
         then Raise (ImproperlyConfiguredException
                "The 'socket' kwarg is not supported with http handlers")
         else if has_parameter (Signature_from_callable f) "data"
                 && method_in "GET" (http_methods h)
         then Raise (ImproperlyConfiguredException
                "'data' kwarg is unsupported for 'GET' request handlers")
         else Ok tt
    else Raise (ValidationException redirect_codes_message).
Proof.
  intros Hannotation.
  unfold HTTPRouteHandler_call, http_validate_handler_function,
    base_validate_handler_function, check_class_annotation,
    bind, get_self, put_self, ret, raise.
  cbn -[method_in REDIRECT_STATUS_CODES media_type_in_json_html has_parameter].
  rewrite Hannotation.
  cbn -[method_in REDIRECT_STATUS_CODES media_type_in_json_html has_parameter].
  destruct (bool_decide (status_code h ∈ REDIRECT_STATUS_CODES));
    cbn -[method_in REDIRECT_STATUS_CODES media_type_in_json_html has_parameter];
    [|reflexivity].
  destruct (is_file && media_type_in_json_html (media_type h))%bool;
    cbn -[method_in REDIRECT_STATUS_CODES media_type_in_json_html has_parameter];
    destruct (has_parameter (Signature_from_callable f) "socket");
    cbn -[method_in REDIRECT_STATUS_CODES media_type_in_json_html has_parameter];
    try reflexivity;
    destruct (has_parameter (Signature_from_callable f) "data");
    cbn -[method_in REDIRECT_STATUS_CODES media_type_in_json_html has_parameter];
    try reflexivity;
    match goal with
    | |- context [method_in "GET" ?ms] =>
        change ms with (http_methods h); destruct (method_in "GET" (http_methods h))
    end; reflexivity.
Qed.

(** Validation assigns [fn], and [media_type] for file results; the status
    code, the hooks and the resolved slots stay. *)
Lemma HTTPRouteHandler_call_keeps (h : HTTPHandler) (f : AnyCallable) :
  let h' := snd (HTTPRouteHandler_call f h) in
  status_code h' = status_code h
  /\ http_ownership_layers h' = http_ownership_layers h
  /\ resolved_after_request h' = resolved_after_request h
  /\ resolved_headers h' = resolved_headers h.
Proof.
  unfold HTTPRouteHandler_call, http_validate_handler_function,
    base_validate_handler_function, check_class_annotation,
    bind, get_self, put_self, ret, raise.
  cbn -[method_in REDIRECT_STATUS_CODES media_type_in_json_html has_parameter].
  destruct (return_annotation (Signature_from_callable f)) as [| |[is_redirect is_file|]|];
    cbn -[method_in REDIRECT_STATUS_CODES media_type_in_json_html has_parameter];
    repeat (match goal with
            | |- context [if ?c then _ else _] => destruct c
            end;
            cbn -[method_in REDIRECT_STATUS_CODES media_type_in_json_html has_parameter]);
    auto.
Qed.

End ValidationProperties.

Section ResponseProperties.
Context {Guard Provide Any : Type} `{EqDecision Provide}.
Variable get_plugin_for_value :
  @Content Any -> list (@PluginProtocol Any) -> option (@PluginProtocol Any).

Local Abbreviation HTTPHandler := (@HTTPRouteHandler Guard Provide Any).
Local Abbreviation Globals := (Dict (@GlobalValue Any)).

(** ** The resolvers leave the status code alone *)

Lemma status_code_resolve_after_request (h : HTTPHandler) :
  status_code (snd (resolve_after_request h)) = status_code h.
Proof. unfold resolve_after_request. now destruct (resolved_after_request h). Qed.

Lemma status_code_resolve_response_headers (h : HTTPHandler) :
  status_code (snd (resolve_response_headers h)) = status_code h.
Proof. unfold resolve_response_headers. now destruct (resolved_headers h). Qed.

(** ** Unfolding [to_response] *)

Lemma to_response_under_unfold (globals : Globals) (data : MaybeAwaitable Value)
    (plugins : list PluginProtocol) (h : HTTPHandler) :
  fst (to_response_under get_plugin_for_value globals data plugins h)
  = match fst (build_response get_plugin_for_value globals (await data) plugins
                 (media_str (media_type (snd (resolve_after_request h))))
                 (headers_at_dispatch h) (handler_at_dispatch h)) with
    | Ok response => run_after_request (fst (resolve_after_request h)) response
    | Raise e => Raise e
    end.
Proof.
  unfold to_response_under, headers_at_dispatch, handler_at_dispatch, bind, lift,
    get_self.
  destruct (resolve_after_request h) as [hook h1]. cbn [fst snd].
  destruct (resolve_response_headers h1) as [resolved h2]. cbn [fst snd].
  destruct (build_response _ _ _ _ _ _ h2) as [[response|e] h3]; cbn [fst snd];
    [|reflexivity].
  unfold ret, raise. now destruct (run_after_request hook response).
Qed.

Lemma status_code_at_dispatch (h : HTTPHandler) :
  status_code (handler_at_dispatch h) = status_code h.
Proof.
  unfold handler_at_dispatch.
  now rewrite status_code_resolve_response_headers, status_code_resolve_after_request.
Qed.

(** ** Template values *)

Lemma request_is_not_a_global : dict_get (@handlers_globals Any) "request" = None.
Proof. reflexivity. Qed.

(** C2.  A Template value makes [to_response] raise [NameError] for the
    name [request], whether or not a template engine is configured:
    neither the configuration error nor a template response is
    produced. *)
Theorem template_value_raises_name_error (h : HTTPHandler)
    (data : MaybeAwaitable Value) (name : string) (context : Any)
    (plugins : list PluginProtocol) :
  await data = Template name context ->
  fst (to_response get_plugin_for_value data plugins h) = Raise (NameError "request").
Proof.
  intros Hdata. unfold to_response. rewrite to_response_under_unfold, Hdata.
  reflexivity.
Qed.

(** Under globals that bind [request], the branch does what it was written
    for. *)
Lemma template_with_request_bound (globals : Globals) (engine : option Any)
    (h : HTTPHandler) (data : MaybeAwaitable Value) (name : string) (context : Any)
    (plugins : list PluginProtocol) :
  dict_get globals "request" = Some (RequestObject engine) ->
  await data = Template name context ->
  fst (to_response_under get_plugin_for_value globals data plugins h)
  = match engine with
    | Some template_engine =>
        run_after_request (fst (resolve_after_request h))
          (TemplateResponse context name template_engine (status_code h)
             (headers_at_dispatch h))
    | None =>
        Raise (InternalServerException "Template engine was not initialized in app")
    end.
Proof.
  intros Hrequest Hdata. rewrite to_response_under_unfold, Hdata.
  unfold build_response, bind, get_self, request_app_template_engine, load_global.
  rewrite Hrequest. destruct engine; cbn; [|reflexivity].
  now rewrite status_code_at_dispatch.
Qed.

(** ** Responses returned by the handler function *)


(** ** Redirect values *)

Lemma to_response_redirect (h : HTTPHandler) (data : MaybeAwaitable Value)
    (path : string) (plugins : list PluginProtocol) :
  await data = Redirect path ->
  fst (to_response get_plugin_for_value data plugins h)
  = run_after_request (fst (resolve_after_request h))
      (RedirectResponse (headers_at_dispatch h) (status_code h) path).
Proof.
  intros Hdata. unfold to_response. rewrite to_response_under_unfold, Hdata.
  unfold build_response, bind, get_self, ret. cbn [fst].
  now rewrite status_code_at_dispatch.
Qed.

(** C7 (amended).  For a function whose return annotation is a redirect
    class: applying the handler fails with a validation error when the
    status code is not one of 301, 302, 303, 307, 308 (so with 200); with
    one of these codes (so with 302) it passes provided the function has no
    parameter [socket] and no parameter [data] on a GET handler.  On a
    handler that passed, [to_response] turns a redirect value into the
    redirect response to the value's path, carrying the handler's status
    code; this response is the result when no after-request hook is
    resolved, and is handed to the hook otherwise. *)
Theorem redirect_validation_and_response (h : HTTPHandler) (f : AnyCallable)
    (is_file : bool) :
  return_annotation (Signature_from_callable f) = ClassObject (Class true is_file) ->
  (status_code h ∉ REDIRECT_STATUS_CODES ->
   fst (HTTPRouteHandler_call f h) = Raise (ValidationException redirect_codes_message))
  /\ (status_code h = 200 ->
      fst (HTTPRouteHandler_call f h) = Raise (ValidationException redirect_codes_message))
  /\ (status_code h ∈ REDIRECT_STATUS_CODES ->
      "socket" ∉ parameters (Signature_from_callable f) ->
      ("data" ∉ parameters (Signature_from_callable f)
       \/ method_in "GET" (http_methods h) = false) ->
      fst (HTTPRouteHandler_call f h) = Ok tt)
  /\ (status_code h = 302 ->
      "socket" ∉ parameters (Signature_from_callable f) ->
      ("data" ∉ parameters (Signature_from_callable f)
       \/ method_in "GET" (http_methods h) = false) ->
      fst (HTTPRouteHandler_call f h) = Ok tt)
  /\ (fst (HTTPRouteHandler_call f h) = Ok tt ->
      let h' := snd (HTTPRouteHandler_call f h) in
      status_code h' ∈ REDIRECT_STATUS_CODES
      /\ forall (data : MaybeAwaitable Value) (path : string)
           (plugins : list PluginProtocol),
          await data = Redirect path ->
          fst (to_response get_plugin_for_value data plugins h')
          = run_after_request (fst (resolve_after_request h'))
              (RedirectResponse (headers_at_dispatch h') (status_code h') path)
          /\ (fst (resolve_after_request h') = None ->
              fst (to_response get_plugin_for_value data plugins h')
              = Ok (RedirectResponse (headers_at_dispatch h') (status_code h') path))).
Proof.
  intros Hannotation.
  pose proof (redirect_annotation_validation h f is_file Hannotation) as Hcall.
  assert (Hfails : status_code h ∉ REDIRECT_STATUS_CODES ->
            fst (HTTPRouteHandler_call f h)
            = Raise (ValidationException redirect_codes_message)).
  { intros Hcode. rewrite Hcall. now rewrite (bool_decide_eq_false_2 _ Hcode). }
  assert (Hpasses : status_code h ∈ REDIRECT_STATUS_CODES ->
            "socket" ∉ parameters (Signature_from_callable f) ->
            ("data" ∉ parameters (Signature_from_callable f)
             \/ method_in "GET" (http_methods h) = false) ->
            fst (HTTPRouteHandler_call f h) = Ok tt).
  { intros Hcode Hsocket Hdata. rewrite Hcall.
    rewrite (bool_decide_eq_true_2 _ Hcode).
    apply has_parameter_false in Hsocket. rewrite Hsocket.
    destruct Hdata as [Hdata|Hget].
    - apply has_parameter_false in Hdata. now rewrite Hdata.
    - rewrite Hget. now rewrite andb_false_r. }
  split; [exact Hfails|]. split.
  { intros Hcode. apply Hfails. rewrite Hcode.
    now apply (bool_decide_eq_false_1 (200 ∈ REDIRECT_STATUS_CODES)). }
  split; [exact Hpasses|]. split.
  { intros Hcode. apply Hpasses. rewrite Hcode.
    now apply (bool_decide_eq_true_1 (302 ∈ REDIRECT_STATUS_CODES)). }
  intros Hok h'.
  destruct (HTTPRouteHandler_call_keeps h f) as (Hstatus & _).
  fold h' in Hstatus. split.
  - rewrite Hstatus. rewrite Hcall in Hok.
    destruct (bool_decide (status_code h ∈ REDIRECT_STATUS_CODES)) eqn:Hcode;
      [now apply bool_decide_eq_true in Hcode | discriminate].
  - intros data path plugins Hdata.
    rewrite (to_response_redirect h' data path plugins Hdata).
    split; [reflexivity|]. intros ->. reflexivity.
Qed.

End ResponseProperties.

Lemma template_value_raises_name_error_witness :
  fst (to_response Examples.no_plugin (Plain (Template "index.html" "context")) []
         (Examples.http_handler 200 None))
  = Raise (NameError "request").
Proof.
  apply (template_value_raises_name_error Examples.no_plugin
           (Examples.http_handler 200 None)
           (Plain (Template "index.html" "context")) "index.html" "context" []).
  reflexivity.
Defined.


(** C7 (as stated) fails twice: with the status code 302 a redirect
    function that takes [socket] is rejected, and on a handler that passed,
    an after-request hook decides what [to_response] gives for a redirect
    value. *)
Lemma redirect_code_is_not_enough :
  fst (HTTPRouteHandler_call Examples.redirect_with_socket
         (Examples.http_handler 302 None))
  = Raise (ImproperlyConfiguredException
             "The 'socket' kwarg is not supported with http handlers")
  /\ fst (HTTPRouteHandler_call Examples.redirect_function
            (Examples.http_handler 302 (Some Examples.replacing_hook)))
     = Ok tt
  /\ fst (to_response Examples.no_plugin (Plain (Redirect "/target")) []
            (snd (HTTPRouteHandler_call Examples.redirect_function
                    (Examples.http_handler 302 (Some Examples.replacing_hook)))))
     = Ok (ResponseObject "replacement").
Proof. repeat split. Qed.

Lemma redirect_validation_and_response_witness :
  fst (HTTPRouteHandler_call Examples.redirect_function (Examples.http_handler 200 None))
  = Raise (ValidationException redirect_codes_message)
  /\ fst (HTTPRouteHandler_call Examples.redirect_function (Examples.http_handler 302 None))
     = Ok tt
  /\ fst (to_response Examples.no_plugin (Plain (Redirect "/target")) []
            (snd (HTTPRouteHandler_call Examples.redirect_function
                    (Examples.http_handler 302 None))))
     = Ok (RedirectResponse [] 302 "/target").
Proof.
  destruct (redirect_validation_and_response Examples.no_plugin
              (Examples.http_handler 200 None) Examples.redirect_function false eq_refl)
    as (_ & H200 & _).
  destruct (redirect_validation_and_response Examples.no_plugin
              (Examples.http_handler 302 None) Examples.redirect_function false eq_refl)
    as (_ & _ & _ & H302 & Hresponse).
  split; [apply H200; reflexivity|].
  assert (Hok : fst (HTTPRouteHandler_call Examples.redirect_function
                       (Examples.http_handler 302 None)) = Ok tt).
  { apply H302; [reflexivity | vm_compute; intros Hin; inversion Hin |].
    left. vm_compute. intros Hin; inversion Hin. }
  split; [exact Hok|].
  destruct (Hresponse Hok) as (_ & Hto).
  destruct (Hto (Plain (Redirect "/target")) "/target" [] eq_refl) as (_ & Hnone).
  apply Hnone. reflexivity.
Defined.

Lemma websocket_validation_witness :
  fst (WebsocketRouteHandler_call Examples.websocket_function
         (Examples.base_handler None None None)) = Ok tt.
Proof.
  destruct (websocket_validation (Examples.base_handler None None None)
              Examples.websocket_function) as (_ & _ & Hok).
  apply Hok. repeat split.
  - vm_compute. left.
  - vm_compute. intros Hin. apply elem_of_cons in Hin as [Heq|Hin];
      [discriminate | inversion Hin].
  - vm_compute. intros Hin. apply elem_of_cons in Hin as [Heq|Hin];
      [discriminate | inversion Hin].
Defined.

Lemma resolvers_are_memoized_witness :
  resolve_guards (snd (resolve_guards Examples.two_guards))
  = (["second"; "first"], snd (resolve_guards Examples.two_guards))
  /\ resolved_guards (snd (resolve_guards Examples.two_guards))
     = Resolved ["second"; "first"].
Proof.
  destruct (resolvers_are_memoized Examples.two_guards (Examples.http_handler 200 None))
    as ((Hsame & Hstores & _) & _).
  split; [exact Hsame | exact (Hstores Examples.two_guards)].
Defined.

(** * Further properties of the module *)

Section WalkProperties.
Context {Guard Provide Any : Type}.

Local Abbreviation Handler := (@BaseRouteHandler Guard Provide Any).
Local Abbreviation OwnerObject := (@Owner Guard Provide Any).

Lemma owners_from_unfold (o : OwnerObject) :
  owners_from o = o :: owners_above (owner_owner o).
Proof. now destruct o as [? ? ? ? ? ? [parent|]]. Qed.

(** The walk upwards from an owner: each layer it yields is the owner of
    the layer before it, and the last one has no owner. *)
Lemma owners_from_chain :
  forall o : OwnerObject,
    (exists root, last (owners_from o) = Some root /\ owner_owner root = None)
    /\ (forall i upper lower,
          owners_from o !! i = Some lower ->
          owners_from o !! S i = Some upper ->
          owner_owner lower = Some upper).
Proof.
  fix IH 1. intros [g d hs rc br ar [parent|]].
  - destruct (IH parent) as [(root & Hlast & Hroot) Hlink].
    rewrite owners_from_unfold. cbn [owner_owner owners_above]. split.
    + exists root. split; [|exact Hroot].
      rewrite last_cons, Hlast. reflexivity.
    + intros [|i] upper lower Hlower Hupper.
      * cbn in Hlower. injection Hlower as <-. cbn [owner_owner].
        rewrite owners_from_unfold in Hupper. cbn in Hupper. congruence.
      * cbn in Hlower, Hupper. now apply (Hlink i).
  - split.
    + eexists. split; reflexivity.
    + intros [|i] upper lower Hlower Hupper; cbn in Hupper; discriminate.
Qed.

(** X1.  [ownership_layers] yields the handler first and then its owners
    upwards: there is one layer more than there are owners, every owner
    yielded is the owner of the one before it, starting from the handler's
    owner, and the walk stops at an owner that has none. *)
Theorem ownership_walk_reaches_the_root (b : Handler) :
  ownership_layers b
  = layer_of_base b :: map layer_of_owner (owners_above (owner b))
  /\ head (owners_above (owner b)) = owner b
  /\ (forall i upper lower,
        owners_above (owner b) !! i = Some lower ->
        owners_above (owner b) !! S i = Some upper ->
        owner_owner lower = Some upper)
  /\ (forall root, last (owners_above (owner b)) = Some root ->
        owner_owner root = None)
  /\ (owner b = None -> ownership_layers b = [layer_of_base b]).
Proof.
  split; [reflexivity|]. unfold ownership_layers.
  destruct (owner b) as [o|]; cbn [owners_above].
  - destruct (owners_from_chain o) as [(root & Hlast & Hroot) Hlink].
    split; [now rewrite owners_from_unfold|]. split; [exact Hlink|].
    split; [|discriminate]. intros root' Hroot'. congruence.
  - split; [reflexivity|]. split; [intros i upper lower Hl; discriminate|].
    split; [discriminate | reflexivity].
Qed.

End WalkProperties.

Lemma ownership_walk_reaches_the_root_witness :
  ownership_layers Examples.routed_base
  = [layer_of_base Examples.routed_base; layer_of_owner Examples.router_layer;
     layer_of_owner Examples.app_layer]
  /\ owner_owner Examples.router_layer = Some Examples.app_layer
  /\ owner_owner Examples.app_layer = None.
Proof.
  destruct (ownership_walk_reaches_the_root Examples.routed_base)
    as (Hlayers & _ & Hlink & Hroot & _).
  split; [exact Hlayers|]. split.
  - apply (Hlink 0%nat); reflexivity.
  - apply Hroot. reflexivity.
Defined.

Section AuthorizationProperties.
Context {Guard Provide Any Connection GuardError : Type}.
Variable invoke :
  Guard -> Connection -> @BaseRouteHandler Guard Provide Any -> @GuardOutcome GuardError.

Local Abbreviation Handler := (@BaseRouteHandler Guard Provide Any).

(** X2.  The first call of [resolve_guards] returns every guard of every
    layer exactly as often as the layers declare it, and nothing else;
    layers without guards add nothing; the handler's own guards, in
    reverse of their declared order, are the last ones. *)
Theorem resolve_guards_collects_all_layers (b : Handler) :
  resolved_guards b = _empty ->
  Permutation (fst (resolve_guards b)) (concat (map guards_of (ownership_layers b)))
  /\ (forall g, g ∈ fst (resolve_guards b)
        <-> exists layer, layer ∈ ownership_layers b /\ g ∈ guards_of layer)
  /\ (exists above, fst (resolve_guards b) = above ++ rev (default [] (guards b))).
Proof.
  intros Hempty.
  assert (Hrev : fst (resolve_guards b)
                 = rev (concat (map guards_of (ownership_layers b)))).
  { unfold resolve_guards. rewrite Hempty. cbn [fst].
    now rewrite fold_extend_with_guards. }
  split; [|split].
  - rewrite Hrev. symmetry. apply Permutation_rev.
  - intros g. rewrite Hrev, list_elem_of_In, <- in_rev, in_concat. split.
    + intros (gs & Hgs & Hg). apply in_map_iff in Hgs as (layer & <- & Hlayer).
      exists layer. rewrite !list_elem_of_In. auto.
    + intros (layer & Hlayer & Hg).
      apply list_elem_of_In in Hlayer. apply list_elem_of_In in Hg.
      exists (guards_of layer). split; [now apply in_map | assumption].
  - rewrite Hrev. unfold ownership_layers. cbn [map concat].
    rewrite rev_app_distr. eexists. reflexivity.
Qed.

(** ** The guard loop *)

Lemma run_guards_all_pass (guards : list Guard) (connection : Connection) (self : Handler) :
  (forall g, g ∈ guards -> guard_error (invoke g connection self) = None) ->
  run_guards invoke guards connection self = (None, guards).
Proof.
  induction guards as [|g guards IH]; intros Hpass; cbn; [reflexivity|].
  unfold copy. rewrite (Hpass g) by left.
  rewrite IH; [reflexivity|]. intros g' Hg'. apply Hpass. now right.
Qed.

Lemma run_guards_first_refusal (before after : list Guard) (g : Guard) (e : GuardError)
    (connection : Connection) (self : Handler) :
  (forall x, x ∈ before -> guard_error (invoke x connection self) = None) ->
  guard_error (invoke g connection self) = Some e ->
  run_guards invoke (before ++ g :: after) connection self = (Some e, before ++ [g]).
Proof.
  induction before as [|x before IH]; intros Hpass Hrefuse; cbn; unfold copy.
  - now rewrite Hrefuse.
  - rewrite (Hpass x) by left. rewrite IH; [reflexivity | | assumption].
    intros y Hy. apply Hpass. now right.
Qed.

(** X3.  [authorize_connection] calls the resolved guards in their order,
    each with the connection and the handler as [resolve_guards] left it.
    If none ends with an error, all of them are called and the connection
    is authorized; the first guard that raises, at the call or when its
    result is awaited, ends the loop with its error, and no guard after it
    is called. *)
Theorem authorize_connection_is_fail_fast (connection : Connection) (b : Handler) :
  let guards := fst (resolve_guards b) in
  let b' := snd (resolve_guards b) in
  snd (authorize_connection invoke connection b) = b'
  /\ ((forall g, g ∈ guards -> guard_error (invoke g connection b') = None) ->
      fst (authorize_connection invoke connection b) = (None, guards))
  /\ (forall before g after e,
        guards = before ++ g :: after ->
        (forall x, x ∈ before -> guard_error (invoke x connection b') = None) ->
        guard_error (invoke g connection b') = Some e ->
        fst (authorize_connection invoke connection b) = (Some e, before ++ [g])).
Proof.
  unfold authorize_connection. destruct (resolve_guards b) as [guards b'].
  cbn [fst snd]. split; [reflexivity|]. split.
  - apply run_guards_all_pass.
  - intros before g after e -> Hpass Hrefuse. now apply run_guards_first_refusal.
Qed.

End AuthorizationProperties.

Lemma resolve_guards_collects_all_layers_witness :
  Permutation (fst (resolve_guards Examples.routed_base))
    ["handler_guard"; "router_guard"; "app_guard"]
  /\ fst (resolve_guards Examples.routed_base)
     = ["app_guard"; "router_guard"; "handler_guard"].
Proof.
  destruct (resolve_guards_collects_all_layers Examples.routed_base eq_refl)
    as (Hperm & _).
  split; [exact Hperm | reflexivity].
Defined.

Lemma authorize_connection_is_fail_fast_witness :
  fst (authorize_connection Examples.refusing_invoke "connection" Examples.routed_base)
  = (Some "denied", ["app_guard"; "router_guard"]).
Proof.
  destruct (authorize_connection_is_fail_fast Examples.refusing_invoke "connection"
              Examples.routed_base) as (_ & _ & Hrefuse).
  apply (Hrefuse ["app_guard"] "router_guard" ["handler_guard"] "denied").
  - reflexivity.
  - intros x Hx. apply list_elem_of_singleton in Hx. now subst.
  - reflexivity.
Defined.

Section LayeredAttributeProperties.
Context {Guard Provide Any : Type} `{EqDecision Provide}.

Local Abbreviation Handler := (@BaseRouteHandler Guard Provide Any).
Local Abbreviation HTTPHandler := (@HTTPRouteHandler Guard Provide Any).
Local Abbreviation LayerView := (@Layer Guard Provide Any).

(** ** The first layer that sets an attribute *)

Lemma nearest_set_cons_None {L A} (attribute : L -> option A) (layer : L)
    (layers : list L) (i : nat) (value : A) :
  attribute layer = None ->
  nearest_set attribute (layer :: layers) i value ->
  exists j, i = S j /\ nearest_set attribute layers j value.
Proof.
  intros Hnone [(l & Hl & Hvalue) Hnearer]. destruct i as [|j].
  - cbn in Hl. injection Hl as ->. congruence.
  - exists j. split; [reflexivity|]. split; [now exists l|].
    intros m l' Hm Hl'. apply (Hnearer (S m) l'); [lia | exact Hl'].
Qed.

Lemma nearest_set_cons_Some {L A} (attribute : L -> option A) (layer : L)
    (layers : list L) (i : nat) (value value' : A) :
  attribute layer = Some value' ->
  nearest_set attribute (layer :: layers) i value ->
  value = value'.
Proof.
  intros Hsome [(l & Hl & Hvalue) Hnearer]. destruct i as [|j].
  - cbn in Hl. injection Hl as ->. congruence.
  - rewrite (Hnearer 0%nat layer) in Hsome; [discriminate | lia | reflexivity].
Qed.

Lemma closest_response_class_nearest (layers : list LayerView)
    (current : @ResponseClass Any) :
  (Forall (fun layer => layer_response_class layer = None) layers ->
   closest_response_class layers current = current)
  /\ (forall i cls, nearest_set layer_response_class layers i cls ->
        closest_response_class layers current = cls).
Proof.
  induction layers as [|layer layers [IHnone IHsome]]; cbn.
  - split; [reflexivity|]. intros i cls [(l & Hl & _) _]. destruct i; discriminate.
  - destruct (layer_response_class layer) as [cls'|] eqn:Hclass; split.
    + intros Hall. apply Forall_cons in Hall as [Hhere _]. congruence.
    + intros i cls Hnearest. symmetry.
      now apply (nearest_set_cons_Some layer_response_class layer layers i).
    + intros Hall. apply Forall_cons in Hall as [_ Hrest]. now apply IHnone.
    + intros i cls Hnearest.
      destruct (nearest_set_cons_None layer_response_class layer layers i cls
                  Hclass Hnearest) as (j & _ & Hj).
      now apply (IHsome j).
Qed.

Lemma first_hook_nearest {H} (hook_of : LayerView -> option H) (layers : list LayerView) :
  (Forall (fun layer => hook_of layer = None) layers ->
   first_hook hook_of layers = None)
  /\ (forall i f, nearest_set hook_of layers i f ->
        first_hook hook_of layers = Some f).
Proof.
  induction layers as [|layer layers [IHnone IHsome]]; cbn.
  - split; [reflexivity|]. intros i f [(l & Hl & _) _]. destruct i; discriminate.
  - destruct (hook_of layer) as [f'|] eqn:Hhook; split.
    + intros Hall. apply Forall_cons in Hall as [Hhere _]. congruence.
    + intros i f Hnearest. f_equal. symmetry.
      now apply (nearest_set_cons_Some hook_of layer layers i).
    + intros Hall. apply Forall_cons in Hall as [_ Hrest]. now apply IHnone.
    + intros i f Hnearest.
      destruct (nearest_set_cons_None hook_of layer layers i f Hhook Hnearest)
        as (j & _ & Hj).
      now apply (IHsome j).
Qed.

(** X4.  The first call of [resolve_response_class] returns the class of
    the layer nearest to the handler that sets one, and [Response] when no
    layer sets one. *)
Theorem resolve_response_class_nearest_or_default (h : HTTPHandler) :
  resolved_response_class h = _empty ->
  (Forall (fun layer => layer_response_class layer = None) (http_ownership_layers h) ->
   fst (resolve_response_class h) = Response)
  /\ (forall i cls,
        nearest_set layer_response_class (http_ownership_layers h) i cls ->
        fst (resolve_response_class h) = cls).
Proof.
  intros Hempty. unfold resolve_response_class. rewrite Hempty. cbn [fst].
  apply closest_response_class_nearest.
Qed.

Lemma unbind_is_function {A B} (c : Callable Any A B) :
  unbind c = PyFunction (function_of c).
Proof. now destruct c. Qed.

(** X5.  The first call of [resolve_after_request], and likewise of
    [resolve_before_request], returns [None] when no layer has the hook;
    otherwise it returns the hook of the nearest layer that has one, as a
    plain function even when the layer holds a bound method, so that
    calling it with one argument applies the declared function. *)
Theorem resolved_hooks_are_unbound (h : HTTPHandler) :
  (resolved_after_request h = _empty ->
   (Forall (fun layer => layer_after_request layer = None) (http_ownership_layers h) ->
    fst (resolve_after_request h) = None)
   /\ (forall i f,
         nearest_set layer_after_request (http_ownership_layers h) i f ->
         fst (resolve_after_request h) = Some (PyFunction (function_of f))
         /\ forall response,
              run_after_request (fst (resolve_after_request h)) response
              = match function_of f response with
                | Ok result => Ok (await result)
                | Raise e => Raise e
                end))
  /\ (resolved_before_request h = _empty ->
      (Forall (fun layer => layer_before_request layer = None) (http_ownership_layers h) ->
       fst (resolve_before_request h) = None)
      /\ (forall i f,
            nearest_set layer_before_request (http_ownership_layers h) i f ->
            fst (resolve_before_request h) = Some (PyFunction (function_of f))
            /\ forall request,
                 option_map (fun hook => call hook request) (fst (resolve_before_request h))
                 = Some (function_of f request))).
Proof.
  split; intros Hempty.
  - unfold resolve_after_request. rewrite Hempty. cbn [fst].
    destruct (first_hook_nearest layer_after_request (http_ownership_layers h))
      as [Hnone Hsome].
    split.
    + intros Hall. now rewrite (Hnone Hall).
    + intros i f Hnearest. rewrite (Hsome i f Hnearest), unbind_is_function.
      split; reflexivity.
  - unfold resolve_before_request. rewrite Hempty. cbn [fst].
    destruct (first_hook_nearest layer_before_request (http_ownership_layers h))
      as [Hnone Hsome].
    split.
    + intros Hall. now rewrite (Hnone Hall).
    + intros i f Hnearest. rewrite (Hsome i f Hnearest), unbind_is_function.
      split; reflexivity.
Qed.

End LayeredAttributeProperties.

Lemma resolve_response_class_nearest_or_default_witness :
  fst (resolve_response_class Examples.routed_handler) = ResponseSubclass "AppResponse"
  /\ fst (resolve_response_class (Examples.http_handler 200 None)) = Response.
Proof.
  destruct (resolve_response_class_nearest_or_default Examples.routed_handler eq_refl)
    as (_ & Hnearest).
  destruct (resolve_response_class_nearest_or_default (Examples.http_handler 200 None)
              eq_refl) as (Hdefault & _).
  split.
  - apply (Hnearest 2%nat). split.
    + eexists. split; reflexivity.
    + intros m layer Hm Hlayer.
      destruct m as [|[|m]]; [| |lia]; cbn in Hlayer; injection Hlayer as <-;
        reflexivity.
  - apply Hdefault. repeat constructor.
Defined.

Lemma resolved_hooks_are_unbound_witness :
  fst (resolve_after_request Examples.routed_handler)
  = Some (PyFunction Examples.tagging_hook)
  /\ run_after_request (fst (resolve_after_request Examples.routed_handler))
       (ResponseObject "made")
     = Ok (ResponseObject "made").
Proof.
  destruct (resolved_hooks_are_unbound Examples.routed_handler) as (Hafter & _).
  destruct (Hafter eq_refl) as (_ & Hnearest).
  destruct (Hnearest 2%nat (PyMethod "app" Examples.tagging_hook)) as (Hhook & Hrun).
  - split.
    + eexists. split; reflexivity.
    + intros m layer Hm Hlayer.
      destruct m as [|[|m]]; [| |lia]; cbn in Hlayer; injection Hlayer as <-;
        reflexivity.
  - split; [exact Hhook | apply Hrun].
Defined.

Section MergedMappingProperties.
Context {Guard Provide Any : Type} `{EqDecision Provide}.

Local Abbreviation Handler := (@BaseRouteHandler Guard Provide Any).
Local Abbreviation HTTPHandler := (@HTTPRouteHandler Guard Provide Any).
Local Abbreviation LayerView := (@Layer Guard Provide Any).

(** ** Looking a name up in the declarations of a chain *)

Lemma dict_get_concat_None {L V} (entries : L -> Dict V) (layers : list L) (name : string) :
  dict_get (concat (map entries layers)) name = None
  <-> Forall (fun layer => dict_get (entries layer) name = None) layers.
Proof.
  induction layers as [|layer layers IH]; cbn.
  - split; [constructor | reflexivity].
  - rewrite dict_get_app, Forall_cons, <- IH.
    destruct (dict_get (entries layer) name); split; intros Hx;
      try tauto; try discriminate.
Qed.

Lemma dict_get_concat_nearest {L V} (entries : L -> Dict V) (layers : list L)
    (name : string) (i : nat) (v : V) :
  nearest_set (fun layer => dict_get (entries layer) name) layers i v ->
  dict_get (concat (map entries layers)) name = Some v.
Proof.
  revert i. induction layers as [|layer layers IH]; intros i Hnearest.
  - destruct Hnearest as [(l & Hl & _) _]. destruct i; discriminate.
  - cbn. rewrite dict_get_app.
    destruct (dict_get (entries layer) name) as [v'|] eqn:Hhere.
    + f_equal. symmetry.
      now apply (nearest_set_cons_Some
                   (fun layer => dict_get (entries layer) name) layer layers i).
    + destruct (nearest_set_cons_None
                  (fun layer => dict_get (entries layer) name) layer layers i v
                  Hhere Hnearest) as (j & _ & Hj).
      now apply (IH j).
Qed.

Lemma dict_get_Some_elem {V} (d : Dict V) (k : string) (v : V) :
  dict_get d k = Some v -> (k, v) ∈ d.
Proof.
  induction d as [|[k' v'] d IH]; cbn; [discriminate|].
  destruct (decide (k = k')) as [->|Hne].
  - intros [= ->]. left.
  - intros Hget. right. now apply IH.
Qed.

(** X6.  The first call of [resolve_response_headers] returns, for every
    name, the header of the nearest layer that declares the name; a name
    is absent exactly when no layer declares it. *)
Theorem resolve_response_headers_nearest_wins (h : HTTPHandler) :
  resolved_headers h = _empty ->
  (forall name i v,
     nearest_set (fun layer => dict_get (or_empty_dict (layer_response_headers layer)) name)
       (http_ownership_layers h) i v ->
     dict_get (fst (resolve_response_headers h)) name = Some v)
  /\ (forall name,
        dict_get (fst (resolve_response_headers h)) name = None
        <-> Forall (fun layer =>
                      dict_get (or_empty_dict (layer_response_headers layer)) name = None)
              (http_ownership_layers h)).
Proof.
  intros Hempty. rewrite (resolve_response_headers_fresh h Hempty).
  unfold header_declarations. split.
  - intros name i v Hnearest. rewrite dict_get_unshadowed.
    now apply (dict_get_concat_nearest _ _ name i).
  - intros name. rewrite dict_get_unshadowed. apply dict_get_concat_None.
Qed.

(** X7.  A mapping returned by [resolve_dependencies] has exactly the names
    that the layers declare: a name is absent exactly when no layer
    declares it, and every name present has the provider of the nearest
    layer that declares it. *)
Theorem resolved_dependencies_have_the_declared_names (b : Handler) (d : Dict Provide) :
  dependencies_memo_sound b ->
  fst (resolve_dependencies b) = Ok d ->
  (forall name,
     dict_get d name = None
     <-> Forall (fun layer =>
                   dict_get (or_empty_dict (layer_dependencies layer)) name = None)
           (ownership_layers b))
  /\ (forall name p,
        dict_get d name = Some p ->
        exists i, nearest_set
                    (fun layer => dict_get (or_empty_dict (layer_dependencies layer)) name)
                    (ownership_layers b) i p).
Proof.
  intros Hsound Hres. rewrite (resolve_dependencies_sound b d Hsound Hres).
  unfold declarations. split.
  - intros name. rewrite dict_get_unshadowed. apply dict_get_concat_None.
  - intros name p. rewrite dict_get_unshadowed.
    generalize (ownership_layers b). intros layers.
    induction layers as [|layer layers IH]; cbn; [discriminate|].
    rewrite dict_get_app.
    destruct (dict_get (or_empty_dict (layer_dependencies layer)) name) as [q|] eqn:Hhere.
    + intros [= ->]. exists 0%nat. split.
      * exists layer. split; [reflexivity | exact Hhere].
      * intros m l Hm. lia.
    + intros Hrest. destruct (IH Hrest) as (i & (l & Hl & Hp) & Hnearer).
      exists (S i). split.
      * exists l. split; assumption.
      * intros [|m] l' Hm Hl'.
        -- cbn in Hl'. injection Hl' as <-. exact Hhere.
        -- apply (Hnearer m l'); [lia | exact Hl'].
Qed.

(** X8.  A mapping returned by [resolve_dependencies] never has one
    provider under two names, and never has a name twice. *)
Theorem resolved_dependencies_are_injective (b : Handler) (d : Dict Provide) :
  dependencies_memo_sound b ->
  fst (resolve_dependencies b) = Ok d ->
  NoDup (map snd d)
  /\ NoDup (keys d)
  /\ (forall k1 k2 p, dict_get d k1 = Some p -> dict_get d k2 = Some p -> k1 = k2).
Proof.
  intros Hsound Hres.
  assert (Hsig : exists sm, signature_model b = Some sm).
  { unfold resolve_dependencies in Hres.
    destruct (signature_model b) as [sm|]; [now exists sm | discriminate]. }
  destruct Hsig as [sm Hsig].
  assert (Hproviders : NoDup (map snd d)).
  { rewrite (resolve_dependencies_result b sm Hsig Hsound) in Hres.
    destruct (add_dependencies_cases (declarations b) [] (NoDup_nil_2))
      as [[Hok Hnd] | (key & dk & p & _ & _ & _ & Hraise)];
      cbn in *; congruence. }
  split; [exact Hproviders|]. split.
  - rewrite (resolve_dependencies_sound b d Hsound Hres). apply NoDup_keys_unshadowed.
  - intros k1 k2 p H1 H2. destruct (decide (k1 = k2)) as [|Hne]; [assumption|].
    exfalso. apply (NoDup_providers_not_aliased d Hproviders).
    exists k1, k2, p. split; [assumption|].
    split; now apply dict_get_Some_elem.
Qed.

End MergedMappingProperties.

Lemma resolve_response_headers_nearest_wins_witness :
  dict_get (fst (resolve_response_headers Examples.routed_handler)) "x-shared"
  = Some (Examples.header "from_router")
  /\ dict_get (fst (resolve_response_headers Examples.routed_handler)) "x-none" = None.
Proof.
  destruct (resolve_response_headers_nearest_wins Examples.routed_handler eq_refl)
    as (Hnearest & Habsent).
  split.
  - apply (Hnearest "x-shared" 1%nat). split.
    + eexists. split; reflexivity.
    + intros m layer Hm Hlayer.
      destruct m as [|m]; [|lia]. cbn in Hlayer. injection Hlayer as <-. reflexivity.
  - apply Habsent. repeat constructor.
Defined.

Lemma resolved_dependencies_have_the_declared_names_witness :
  dict_get [("db", "handler_db"); ("session", "app_session")] "cache" = None
  /\ exists i,
       nearest_set (fun layer => dict_get (or_empty_dict (layer_dependencies layer)) "session")
         (ownership_layers Examples.routed_base) i "app_session".
Proof.
  assert (Hres : fst (resolve_dependencies Examples.routed_base)
                 = Ok [("db", "handler_db"); ("session", "app_session")])
    by (vm_compute; reflexivity).
  destruct (resolved_dependencies_have_the_declared_names Examples.routed_base
              [("db", "handler_db"); ("session", "app_session")] I Hres)
    as (Habsent & Hpresent).
  split.
  - apply Habsent. repeat constructor.
  - apply Hpresent. reflexivity.
Defined.

Lemma resolved_dependencies_are_injective_witness :
  NoDup (map snd [("db", "handler_db"); ("session", "app_session")])
  /\ NoDup (keys [("db", "handler_db"); ("session", "app_session")]).
Proof.
  assert (Hres : fst (resolve_dependencies Examples.routed_base)
                 = Ok [("db", "handler_db"); ("session", "app_session")])
    by (vm_compute; reflexivity).
  destruct (resolved_dependencies_are_injective Examples.routed_base
              [("db", "handler_db"); ("session", "app_session")] I Hres)
    as (Hproviders & Hkeys & _).
  split; assumption.
Defined.

Section FurtherConstructionProperties.
Context {Guard Provide Any : Type} `{EqDecision Provide}.
Variable normalize_path : string -> string.
Variable Method : list string.

Local Abbreviation Handler := (@BaseRouteHandler Guard Provide Any).
Local Abbreviation HTTPHandler := (@HTTPRouteHandler Guard Provide Any).
Local Abbreviation Arguments_ := (@HTTPArguments Guard Provide Any).

Lemma validate_method_outcome (v : MethodValue) :
  match validate_method Method v with
  | Ok _ => admitted_method Method v
  | Raise e => e = ValidationError "http_method" /\ ~ admitted_method Method v
  end.
Proof.
  destruct v as [m|s]; cbn [validate_method admitted_method]; [exact I|].
  destruct (HttpMethod_of_value s) as [m|] eqn:Hvalue.
  - left. exists m. symmetry. now apply HttpMethod_of_value_Some.
  - destruct (bool_decide (s ∈ Method)) eqn:Hin.
    + right. now apply bool_decide_eq_true_1 in Hin.
    + apply bool_decide_eq_false_1 in Hin. split; [reflexivity|].
      intros [[m ->]|Hs]; [|contradiction].
      rewrite HttpMethod_of_value_value in Hvalue. discriminate.
Qed.

Lemma validate_methods_outcome (vs : list MethodValue) :
  match validate_methods Method vs with
  | Ok vs' => Forall (admitted_method Method) vs /\ length vs' = length vs
  | Raise e =>
      e = ValidationError "http_method" /\ ~ Forall (admitted_method Method) vs
  end.
Proof.
  induction vs as [|v vs IH]; cbn [validate_methods]; [now split|].
  pose proof (validate_method_outcome v) as Hv.
  destruct (validate_method Method v) as [v'|e].
  - destruct (validate_methods Method vs) as [vs'|e].
    + destruct IH as [Hall Hlen]. split; [now constructor|]. cbn. now rewrite Hlen.
    + destruct IH as [-> Hnot]. split; [reflexivity|].
      intros Hall. apply Hnot. now inversion Hall.
  - destruct Hv as [-> Hnot]. split; [reflexivity|].
    intros Hall. apply Hnot. now inversion Hall.
Qed.

(** X9.  Provided [Method] holds no empty string,
    [HTTPRouteHandler.__init__] raises the configuration error
    "An http_method kwarg is required" exactly when [http_method] is [None]
    or the empty list; it raises the validation error of the argument
    [http_method] exactly when one of the method values passed is neither a
    member of [HttpMethod], nor the value of one, nor a string of [Method];
    and it constructs a handler exactly when at least one method value is
    passed and all of them are such values. *)
Theorem http_method_is_required (a : option MethodArg) (code : option Z)
    (args : Arguments_) :
  EmptyString ∉ Method ->
  (HTTPRouteHandler_init (Guard:=Guard) (Provide:=Provide) normalize_path Method
     a code args
   = Raise (ImproperlyConfiguredException "An http_method kwarg is required")
   <-> (a = None \/ a = Some (MethodList [])))
  /\ (HTTPRouteHandler_init (Guard:=Guard) (Provide:=Provide) normalize_path Method
        a code args
      = Raise (ValidationError "http_method")
      <-> ~ Forall (admitted_method Method) (method_values a))
  /\ ((exists h : HTTPHandler,
         HTTPRouteHandler_init normalize_path Method a code args = Ok h)
      <-> (method_values a <> [] /\ Forall (admitted_method Method) (method_values a))).
Proof.
  intros Hempty. unfold HTTPRouteHandler_init, HTTPRouteHandler_init_body.
  destruct a as [[v|vs]|]; cbn [validate_http_method method_values].
  - pose proof (validate_method_outcome v) as Hv.
    destruct (validate_method Method v) as [v'|e] eqn:Hvalid.
    + cbn [method_arg_truthy].
      rewrite (validate_method_truthy Method v v' Hempty Hvalid).
      cbn [negb]. split; [|split].
      * split; [discriminate | intros [Hx|Hx]; discriminate Hx].
      * split; [discriminate|]. intros Hnot. exfalso. apply Hnot. now repeat constructor.
      * split; [|intros _; eexists; reflexivity].
        intros _. split; [discriminate | now repeat constructor].
    + destruct Hv as [-> Hnot]. split; [|split].
      * split; [discriminate | intros [Hx|Hx]; discriminate Hx].
      * split; [|reflexivity]. intros _ Hall. apply Hnot. now inversion Hall.
      * split; [intros [h Hh]; discriminate Hh|].
        intros [_ Hall]. exfalso. apply Hnot. now inversion Hall.
  - pose proof (validate_methods_outcome vs) as Hvs.
    destruct (validate_methods Method vs) as [vs'|e] eqn:Hvalid.
    + destruct Hvs as [Hall Hlen].
      destruct vs' as [|v' vs']; destruct vs as [|v vs]; try discriminate Hlen;
        cbn [method_arg_truthy negb].
      * split; [|split].
        -- split; [now right | reflexivity].
        -- split; [discriminate | intros Hnot; exfalso; now apply Hnot].
        -- split; [intros [h Hh]; discriminate Hh | intros [Hx _]; now exfalso].
      * split; [|split].
        -- split; [discriminate | intros [Hx|Hx]; discriminate Hx].
        -- split; [discriminate | intros Hnot; exfalso; now apply Hnot].
        -- split; [|intros _; eexists; reflexivity]. intros _. now split.
    + destruct Hvs as [-> Hnot]. split; [|split].
      * split; [discriminate|]. intros [Hx|Hx]; [discriminate Hx|].
        injection Hx as ->. discriminate Hvalid.
      * split; [now intros _ | reflexivity].
      * split; [intros [h Hh]; discriminate Hh|]. intros [_ Hall]. contradiction.
  - cbn [method_arg_truthy negb]. split; [|split].
    + split; [now left | reflexivity].
    + split; [discriminate | intros Hnot; exfalso; apply Hnot; constructor].
    + split; [intros [h Hh]; discriminate Hh | intros [Hx _]; now exfalso].
Qed.

Lemma method_in_map_Str (name : string) (names : list string) :
  method_in name (map Str names) = true <-> name ∈ names.
Proof.
  unfold method_in. rewrite existsb_exists. split.
  - intros (v & Hv & Heq). apply in_map_iff in Hv as (s & <- & Hs).
    apply bool_decide_eq_true in Heq. cbn in Heq. subst. now apply list_elem_of_In.
  - intros Hin. exists (Str name). split.
    + apply in_map. now apply list_elem_of_In.
    + now apply bool_decide_eq_true.
Qed.

Lemma map_upper_validated (vs vs' : list MethodValue) :
  Forall2 (fun v v' => validate_method Method v = Ok v') vs vs' ->
  map (fun v => upper (method_str v)) vs' = map (fun v => upper (method_str v)) vs.
Proof.
  induction 1 as [|v v' vs vs' Hv _ IH]; [reflexivity|]. cbn [map].
  now rewrite IH, (validate_method_str Method v v' Hv).
Qed.

(** X10.  A list of two or more methods that argument validation accepts
    is stored as the list of the upper-cased method strings, and the status
    code defaults to 200 whatever the methods are; [http_methods] is that
    list.  A list of one accepted method is stored as validation returns
    it: as the member of [HttpMethod] when the method was written as a
    member or as the value of one, and as written otherwise. *)
Theorem several_methods_are_upper_cased (v1 v2 : MethodValue) (vs : list MethodValue)
    (args : Arguments_) :
  Forall (admitted_method Method) (v1 :: v2 :: vs) ->
  (exists h : HTTPHandler,
     HTTPRouteHandler_init normalize_path Method (Some (MethodList (v1 :: v2 :: vs)))
       None args = Ok h
     /\ http_method h
        = StoredList (map (fun v => upper (method_str v)) (v1 :: v2 :: vs))
     /\ status_code h = 200
     /\ (forall name,
           method_in name (http_methods h) = true
           <-> exists v, v ∈ v1 :: v2 :: vs /\ upper (method_str v) = name))
  /\ (exists (h : HTTPHandler) (v1' : MethodValue),
        HTTPRouteHandler_init normalize_path Method (Some (MethodList [v1])) None args
        = Ok h
        /\ http_method h = StoredScalar v1'
        /\ (forall m, method_str v1 = HttpMethod_value m -> v1' = Member m)
        /\ ((forall m, method_str v1 <> HttpMethod_value m) -> v1' = v1)
        /\ (forall name, method_in name (http_methods h) = true <-> method_str v1 = name)).
Proof.
  intros Hall.
  pose proof (validate_methods_outcome (v1 :: v2 :: vs)) as Hvs.
  destruct (validate_methods Method (v1 :: v2 :: vs)) as [vs'|e] eqn:Hvalid;
    [|now destruct Hvs as [_ Hnot]].
  pose proof (proj1 (validate_methods_Forall2 Method _ _) Hvalid) as Hpairs.
  inversion Hpairs as [|? v1' ? vs1 Hv1 Hrest]; subst.
  inversion Hrest as [|? v2' ? vs2 Hv2 Hrest']; subst.
  split.
  - rewrite (HTTPRouteHandler_init_truthy normalize_path Method
               (MethodList (v1 :: v2 :: vs)) (MethodList (v1' :: v2' :: vs2)))
      by (cbn [validate_http_method method_arg_truthy]; now rewrite ?Hvalid).
    cbn [store_http_method].
    rewrite (map_upper_validated _ _ Hpairs).
    eexists. split; [reflexivity|]. split; [reflexivity|]. split; [reflexivity|].
    intros name. cbn [http_methods http_method].
    rewrite method_in_map_Str, list_elem_of_In, in_map_iff.
    split; intros (v & H1 & H2).
    + exists v. split; [now apply list_elem_of_In | assumption].
    + exists v. split; [assumption | now apply list_elem_of_In].
  - rewrite (HTTPRouteHandler_init_truthy normalize_path Method
               (MethodList [v1]) (MethodList [v1']))
      by (cbn [validate_http_method validate_methods method_arg_truthy];
          now rewrite ?Hv1).
    eexists. exists v1'. split; [reflexivity|]. split; [reflexivity|].
    pose proof (validate_method_str Method v1 v1' Hv1) as Hstr.
    split; [|split].
    + intros m Hm.
      apply validate_method_cases in Hv1 as [(m' & -> & Hm')|(s & -> & -> & _ & Hnone)].
      * f_equal. rewrite Hm in Hm'. now destruct m, m'.
      * cbn [method_str] in Hm. subst s.
        rewrite HttpMethod_of_value_value in Hnone. discriminate.
    + intros Hno.
      apply validate_method_cases in Hv1 as [(m' & -> & Hm')|(s & -> & -> & _)];
        [now apply Hno in Hm' | reflexivity].
    + intros name.
      cbn [http_methods http_method store_http_method method_in existsb].
      rewrite orb_false_r. unfold method_eq. rewrite bool_decide_eq_true, Hstr. cbn.
      split; congruence.
Qed.

(** X11.  A constructed handler has at least one path: one per entry of a
    non-empty list, the one given as a string, and the root path when no
    path, the empty string or the empty list is given. *)
Theorem constructed_handler_has_a_path (a : MethodArg) (code : option Z)
    (args : Arguments_) (h : HTTPHandler) :
  HTTPRouteHandler_init normalize_path Method (Some a) code args = Ok h ->
  paths (base h) <> []
  /\ (arg_path args = None \/ arg_path args = Some (PathStr EmptyString)
      \/ arg_path args = Some (PathList []) ->
      paths (base h) = [normalize_path "/"])
  /\ (forall p, p <> EmptyString -> arg_path args = Some (PathStr p) ->
        paths (base h) = [normalize_path p])
  /\ (forall ps, ps <> [] -> arg_path args = Some (PathList ps) ->
        paths (base h) = map normalize_path ps).
Proof.
  unfold HTTPRouteHandler_init, HTTPRouteHandler_init_body.
  destruct (validate_http_method Method (Some a)) as [a'|e]; [|discriminate].
  destruct (negb (method_arg_truthy a')); [discriminate|].
  intros Hh. injection Hh as <-. cbn [base paths BaseRouteHandler_init].
  unfold init_paths. split; [|split; [|split]].
  - destruct (arg_path args) as [[p|[|p ps]]|]; discriminate.
  - intros [-> | [-> | ->]]; reflexivity.
  - intros p Hp ->. now rewrite (bool_decide_eq_false_2 _ Hp).
  - intros [|p ps] Hps ->; [contradiction | reflexivity].
Qed.

(** X12.  Without a signature model [resolve_dependencies] raises
    [RuntimeError] and leaves the handler as it is, whatever the layers
    declare and even when the slot is resolved; this is the state of every
    newly constructed handler, whose slots are all unresolved. *)
Theorem resolve_dependencies_needs_signature_model (b : Handler) :
  (signature_model b = None ->
   resolve_dependencies b
   = (Raise (RuntimeError
        "resolve_dependencies cannot be called before a signature model has been generated"),
      b))
  /\ (forall (a : MethodArg) (code : option Z) (args : Arguments_) (h : HTTPHandler),
        HTTPRouteHandler_init normalize_path Method (Some a) code args = Ok h ->
        signature_model (base h) = None
        /\ fn (base h) = None
        /\ owner (base h) = None
        /\ resolved_guards (base h) = _empty
        /\ resolved_dependencies (base h) = _empty
        /\ resolved_headers h = _empty
        /\ resolved_response_class h = _empty
        /\ resolved_after_request h = _empty
        /\ resolved_before_request h = _empty
        /\ is_ok (fst (http_resolve_dependencies h)) = false).
Proof.
  split.
  - intros Hsig. unfold resolve_dependencies. now rewrite Hsig.
  - intros a code args h. unfold HTTPRouteHandler_init, HTTPRouteHandler_init_body.
    destruct (validate_http_method Method (Some a)) as [a'|e]; [|discriminate].
    destruct (negb (method_arg_truthy a')); [discriminate|].
    intros Hh. injection Hh as <-. repeat split.
Qed.

(** ** The verb classes *)

(** X13.  Each of the classes [get], [post], [put], [patch] and [delete]
    constructs its handler without fail, for the one method of its name, in
    upper case, and with the status code of the class when none is passed.
    On a [get] handler every function with a [data] parameter is rejected;
    on the four others a function annotated [None] without a [socket]
    parameter is accepted with or without [data]. *)
Theorem verb_classes (m : HttpMethod) (args : Arguments_) (f : AnyCallable) :
  exists h : HTTPHandler,
    verb_init normalize_path Method m None args = Ok h
    /\ http_methods h = [Str (HttpMethod_value m)]
    /\ status_code h = documented_status_code m
    /\ (method_in "GET" (http_methods h) = true <-> m = GET)
    /\ (m = GET -> "data" ∈ parameters (Signature_from_callable f) ->
        exists e, fst (HTTPRouteHandler_call f h) = Raise e)
    /\ (m <> GET ->
        return_annotation (Signature_from_callable f) = None_annotation ->
        "socket" ∉ parameters (Signature_from_callable f) ->
        fst (HTTPRouteHandler_call f h) = Ok tt).
Proof.
  assert (Hinit : verb_init normalize_path Method m None args
                  = HTTPRouteHandler_init normalize_path Method
                      (Some (Scalar (Member m))) None args) by now destruct m.
  rewrite Hinit,
    (HTTPRouteHandler_init_truthy normalize_path Method (Scalar (Member m))
       (Scalar (Member m)))
    by (reflexivity || apply member_truthy).
  eexists. split; [reflexivity|].
  split; [reflexivity|]. split; [now destruct m|].
  split.
  { destruct m; split; intros Hx; try reflexivity; try discriminate Hx;
      vm_compute in Hx; discriminate Hx. }
  unfold HTTPRouteHandler_call, http_validate_handler_function,
    base_validate_handler_function, check_class_annotation,
    bind, get_self, put_self, ret, raise.
  cbn -[method_in REDIRECT_STATUS_CODES media_type_in_json_html has_parameter].
  split.
  - intros -> Hdata. apply has_parameter_true in Hdata.
    destruct (return_annotation (Signature_from_callable f)) as [| |[r fl|]|];
      cbn -[method_in REDIRECT_STATUS_CODES media_type_in_json_html has_parameter];
      repeat (match goal with
              | |- context [if ?c then _ else _] =>
                  lazymatch c with
                  | context [method_in] => fail
                  | _ => destruct c eqn:?
                  end
              end;
              cbn -[method_in REDIRECT_STATUS_CODES media_type_in_json_html has_parameter]);
      try (eexists; reflexivity);
      rewrite Hdata; change (method_in "GET" [Str "GET"]) with true; cbn;
      eexists; reflexivity.
  - intros Hm Hannotation Hsocket. apply has_parameter_false in Hsocket.
    rewrite Hannotation.
    cbn -[method_in REDIRECT_STATUS_CODES media_type_in_json_html has_parameter].
    rewrite Hsocket.
    destruct (has_parameter (Signature_from_callable f) "data");
      [|reflexivity].
    destruct m; try (exfalso; now apply Hm); reflexivity.
Qed.

End FurtherConstructionProperties.

Lemma several_methods_are_upper_cased_witness :
  (exists h : @HTTPRouteHandler string string string,
     HTTPRouteHandler_init id Examples.method_literals
       (Some (MethodList [Str "GET"; Member POST; Str "HEAD"])) None
       Examples.plain_arguments = Ok h
     /\ http_method h = StoredList ["GET"; "POST"; "HEAD"]
     /\ status_code h = 200)
  /\ (exists h : @HTTPRouteHandler string string string,
        HTTPRouteHandler_init id Examples.method_literals (Some (MethodList [Str "GET"]))
          None Examples.plain_arguments = Ok h
        /\ http_method h = StoredScalar (Member GET)
        /\ method_in "GET" (http_methods h) = true).
Proof.
  assert (Hall : Forall (admitted_method Examples.method_literals)
                   [Str "GET"; Member POST; Str "HEAD"]).
  { constructor; [left; now exists GET|].
    constructor; [exact I|].
    constructor; [|constructor].
    right. vm_compute. do 5 right. left. }
  destruct (several_methods_are_upper_cased (Guard:=string) (Provide:=string) id
              Examples.method_literals (Str "GET") (Member POST) [Str "HEAD"]
              Examples.plain_arguments Hall)
    as ((h & Hh & Hstored & Hcode & _) & (h1 & v1' & Hh1 & Hstored1 & Hmember & _ & Hin)).
  split.
  - exists h. auto.
  - exists h1. split; [exact Hh1|].
    split; [rewrite Hstored1; f_equal; now apply (Hmember GET)|].
    now apply Hin.
Defined.

Lemma constructed_handler_has_a_path_witness :
  exists h : @HTTPRouteHandler string string string,
    HTTPRouteHandler_init id Examples.method_literals (Some (Scalar (Member GET))) None
      Examples.plain_arguments = Ok h
    /\ paths (base h) = ["/"].
Proof.
  eexists. split; [reflexivity|].
  refine (proj1 (proj2 (constructed_handler_has_a_path (Guard:=string) (Provide:=string)
                          id Examples.method_literals (Scalar (Member GET)) None
                          Examples.plain_arguments _ eq_refl)) _).
  left. reflexivity.
Defined.

Lemma resolve_dependencies_needs_signature_model_witness :
  exists h : @HTTPRouteHandler string string string,
    HTTPRouteHandler_init id Examples.method_literals (Some (Scalar (Member GET))) None
      Examples.plain_arguments = Ok h
    /\ signature_model (base h) = None
    /\ is_ok (fst (http_resolve_dependencies h)) = false.
Proof.
  eexists. split; [reflexivity|].
  destruct (resolve_dependencies_needs_signature_model (Guard:=string) (Provide:=string)
              id Examples.method_literals (Examples.base_handler None None None))
    as (_ & Hfresh).
  destruct (Hfresh (Scalar (Member GET)) None Examples.plain_arguments _ eq_refl)
    as (Hsig & _ & _ & _ & _ & _ & _ & _ & _ & Hraise).
  split; [exact Hsig | exact Hraise].
Defined.

Lemma verb_classes_witness :
  (exists h : @HTTPRouteHandler string string string,
     get_init id Examples.method_literals None Examples.plain_arguments = Ok h
     /\ exists e, fst (HTTPRouteHandler_call Examples.data_function h) = Raise e)
  /\ (exists h : @HTTPRouteHandler string string string,
        post_init id Examples.method_literals None Examples.plain_arguments = Ok h
        /\ status_code h = 201
        /\ fst (HTTPRouteHandler_call Examples.data_function h) = Ok tt).
Proof.
  split.
  - destruct (verb_classes (Guard:=string) (Provide:=string) id
                Examples.method_literals GET Examples.plain_arguments
                Examples.data_function)
      as (h & Hinit & _ & _ & _ & Hdata & _).
    exists h. split; [exact Hinit|]. apply Hdata; [reflexivity|].
    vm_compute. left.
  - destruct (verb_classes (Guard:=string) (Provide:=string) id
                Examples.method_literals POST Examples.plain_arguments
                Examples.data_function)
      as (h & Hinit & _ & Hcode & _ & _ & Hother).
    exists h. split; [exact Hinit|]. split; [exact Hcode|].
    apply Hother; [discriminate | reflexivity |].
    vm_compute. intros Hin. apply elem_of_cons in Hin as [Heq|Hin];
      [discriminate | inversion Hin].
Defined.

Section FurtherValidationProperties.
Context {Guard Provide Any : Type} `{EqDecision Provide}.
Local Set Warnings "-clear-no-such-hyp".

Local Abbreviation Handler := (@BaseRouteHandler Guard Provide Any).
Local Abbreviation HTTPHandler := (@HTTPRouteHandler Guard Provide Any).

Local Ltac run_validation :=
  unfold HTTPRouteHandler_call, http_validate_handler_function,
    base_validate_handler_function, check_class_annotation,
    bind, get_self, put_self, ret, raise;
  cbn -[method_in REDIRECT_STATUS_CODES media_type_in_json_html has_parameter
        http_methods].

Local Ltac split_tests :=
  repeat (match goal with
          | |- context [if ?c then _ else _] => destruct c eqn:?
          end;
          cbn -[method_in REDIRECT_STATUS_CODES media_type_in_json_html has_parameter
                http_methods] in *).

(** Every outcome of applying an HTTP handler to a function, by the tests in
    the order the method makes them. *)
Lemma http_validation_outcome (h : HTTPHandler) (f : AnyCallable) :
  let signature := Signature_from_callable f in
  let wrong_redirect_code :=
    match return_annotation signature with
    | ClassObject (Class true _) =>
        negb (bool_decide (status_code h ∈ REDIRECT_STATUS_CODES))
    | _ => false
    end in
  match return_annotation signature with
  | Signature_empty =>
      exists detail, fst (HTTPRouteHandler_call f h) = Raise (ValidationException detail)
  | _ =>
      fst (HTTPRouteHandler_call f h)
      = if wrong_redirect_code
        then Raise (ValidationException redirect_codes_message)
        else if has_parameter signature "socket"
        then Raise (ImproperlyConfiguredException
               "The 'socket' kwarg is not supported with http handlers")
        else if has_parameter signature "data" && method_in "GET" (http_methods h)
        then Raise (ImproperlyConfiguredException
               "'data' kwarg is unsupported for 'GET' request handlers")
        else Ok tt
  end.
Proof.
  run_validation.
  destruct (return_annotation (Signature_from_callable f)) as [| |[r fl|]|];
    cbn -[method_in REDIRECT_STATUS_CODES media_type_in_json_html has_parameter
          http_methods];
    [eexists; reflexivity|..];
    rewrite ?http_methods_set_media_type, ?http_methods_set_base;
    try destruct r;
    cbn -[method_in REDIRECT_STATUS_CODES media_type_in_json_html has_parameter
          http_methods];
    split_tests;
    rewrite ?http_methods_set_media_type, ?http_methods_set_base in *;
    try reflexivity; try congruence.
Qed.

(** X14.  Applying an HTTP handler to a function succeeds exactly when the
    function has a return annotation, the status code is a redirect code
    if the annotation is a redirect class, there is no [socket] parameter,
    and there is no [data] parameter on a handler for GET.  A missing
    annotation gives a validation error, a [socket] parameter always
    fails, and every failure is a validation or a configuration error. *)
Theorem http_validation_accepts_exactly (h : HTTPHandler) (f : AnyCallable) :
  (fst (HTTPRouteHandler_call f h) = Ok tt
   <-> (return_annotation (Signature_from_callable f) <> Signature_empty
        /\ (forall is_file,
              return_annotation (Signature_from_callable f)
              = ClassObject (Class true is_file) ->
              status_code h ∈ REDIRECT_STATUS_CODES)
        /\ ("socket" ∉ parameters (Signature_from_callable f))
        /\ ("data" ∈ parameters (Signature_from_callable f) ->
            method_in "GET" (http_methods h) = false)))
  /\ (forall e, fst (HTTPRouteHandler_call f h) = Raise e ->
        exists detail,
          e = ValidationException detail \/ e = ImproperlyConfiguredException detail)
  /\ (return_annotation (Signature_from_callable f) = Signature_empty ->
      exists detail, fst (HTTPRouteHandler_call f h) = Raise (ValidationException detail))
  /\ ("socket" ∈ parameters (Signature_from_callable f) ->
      exists e, fst (HTTPRouteHandler_call f h) = Raise e).
Proof.
  pose proof (http_validation_outcome h f) as Hout. cbv zeta in Hout.
  rewrite <- !has_parameter_true. revert Hout.
  destruct (return_annotation (Signature_from_callable f)) as [| |[r fl|]|] eqn:Hann;
    cbv beta iota; intros Hout.
  - destruct Hout as [detail Hout]. rewrite Hout. naive_solver.
  - rewrite Hout.
    destruct (has_parameter (Signature_from_callable f) "socket");
      destruct (has_parameter (Signature_from_callable f) "data");
      destruct (method_in "GET" (http_methods h)); cbn; naive_solver.
  - rewrite Hout. destruct r.
    + destruct (decide (status_code h ∈ REDIRECT_STATUS_CODES)) as [Hin|Hnin].
      * rewrite (bool_decide_eq_true_2 _ Hin). cbn.
        destruct (has_parameter (Signature_from_callable f) "socket");
          destruct (has_parameter (Signature_from_callable f) "data");
          destruct (method_in "GET" (http_methods h)); cbn; naive_solver.
      * rewrite (bool_decide_eq_false_2 _ Hnin). cbn.
        destruct (has_parameter (Signature_from_callable f) "socket");
          naive_solver.
    + destruct (has_parameter (Signature_from_callable f) "socket");
        destruct (has_parameter (Signature_from_callable f) "data");
        destruct (method_in "GET" (http_methods h)); cbn; naive_solver.
  - rewrite Hout.
    destruct (has_parameter (Signature_from_callable f) "socket");
      destruct (has_parameter (Signature_from_callable f) "data");
      destruct (method_in "GET" (http_methods h)); cbn; naive_solver.
  - rewrite Hout.
    destruct (has_parameter (Signature_from_callable f) "socket");
      destruct (has_parameter (Signature_from_callable f) "data");
      destruct (method_in "GET" (http_methods h)); cbn; naive_solver.
Qed.

(** X15.  Applying an HTTP handler to a function stores the function and
    keeps the status code.  When the return annotation is a file class
    (and the redirect test, if it applies, passes), a JSON or HTML media
    type is replaced by plain text and any other media type is kept, also
    when a later test rejects the function; for every other annotation the
    media type is kept. *)
Theorem file_results_get_text_media_type (h : HTTPHandler) (f : AnyCallable) :
  fn (base (snd (HTTPRouteHandler_call f h))) = Some f
  /\ status_code (snd (HTTPRouteHandler_call f h)) = status_code h
  /\ (forall is_redirect,
        return_annotation (Signature_from_callable f)
        = ClassObject (Class is_redirect true) ->
        (is_redirect = true -> status_code h ∈ REDIRECT_STATUS_CODES) ->
        media_type (snd (HTTPRouteHandler_call f h))
        = if media_type_in_json_html (media_type h)
          then MediaMember TEXT else media_type h)
  /\ ((forall is_redirect,
         return_annotation (Signature_from_callable f)
         <> ClassObject (Class is_redirect true)) ->
      media_type (snd (HTTPRouteHandler_call f h)) = media_type h)
  /\ (forall m, media_type h = MediaMember m ->
        media_type_in_json_html (media_type h) = true <-> m = JSON \/ m = HTML).
Proof.
  split; [|split; [|split; [|split]]].
  - run_validation.
    destruct (return_annotation (Signature_from_callable f)) as [| |[r fl|]|];
      cbn -[method_in REDIRECT_STATUS_CODES media_type_in_json_html has_parameter
            http_methods];
      split_tests; reflexivity.
  - run_validation.
    destruct (return_annotation (Signature_from_callable f)) as [| |[r fl|]|];
      cbn -[method_in REDIRECT_STATUS_CODES media_type_in_json_html has_parameter
            http_methods];
      split_tests; reflexivity.
  - intros is_redirect Hannotation Hcode. run_validation. rewrite Hannotation.
    cbn -[method_in REDIRECT_STATUS_CODES media_type_in_json_html has_parameter
          http_methods].
    assert (Htest : (is_redirect
                     && negb (bool_decide (status_code h ∈ REDIRECT_STATUS_CODES)))%bool
                    = false).
    { destruct is_redirect; [|reflexivity].
      now rewrite (bool_decide_eq_true_2 _ (Hcode eq_refl)). }
    rewrite Htest.
    cbn -[method_in REDIRECT_STATUS_CODES media_type_in_json_html has_parameter
          http_methods].
    destruct (media_type_in_json_html (media_type h));
      cbn -[method_in REDIRECT_STATUS_CODES media_type_in_json_html has_parameter
            http_methods];
      split_tests; reflexivity.
  - intros Hnot. run_validation.
    destruct (return_annotation (Signature_from_callable f)) as [| |[r [|]|]|];
      try (exfalso; now apply (Hnot r));
      cbn -[method_in REDIRECT_STATUS_CODES media_type_in_json_html has_parameter
            http_methods];
      split_tests; reflexivity.
  - intros m ->. destruct m; cbn; split; intros Hx;
      try reflexivity; try discriminate Hx; try (now left); try (now right).
    destruct Hx as [Hx|Hx]; discriminate Hx.
Qed.

(** X16.  Applying an ASGI handler to a function stores the function, and
    succeeds exactly when the return annotation is [None] and the function
    has the parameters [scope], [send] and [receive]; every failure is a
    configuration error. *)
Theorem asgi_validation (b : Handler) (f : AnyCallable) :
  fn (snd (ASGIRouteHandler_call f b)) = Some f
  /\ (fst (ASGIRouteHandler_call f b) = Ok tt
      <-> (return_annotation (Signature_from_callable f) = None_annotation
           /\ ("scope" ∈ parameters (Signature_from_callable f))
           /\ ("send" ∈ parameters (Signature_from_callable f))
           /\ ("receive" ∈ parameters (Signature_from_callable f))))
  /\ (forall e, fst (ASGIRouteHandler_call f b) = Raise e ->
        exists detail, e = ImproperlyConfiguredException detail).
Proof.
  unfold ASGIRouteHandler_call, asgi_validate_handler_function,
    base_validate_handler_function.
  cbn [fst snd fn set_fn existsb].
  rewrite <- !has_parameter_true.
  destruct (return_annotation (Signature_from_callable f));
    destruct (has_parameter (Signature_from_callable f) "scope");
    destruct (has_parameter (Signature_from_callable f) "send");
    destruct (has_parameter (Signature_from_callable f) "receive");
    cbn; naive_solver.
Qed.

End FurtherValidationProperties.

Lemma file_results_get_text_media_type_witness :
  media_type (snd (HTTPRouteHandler_call Examples.file_function
                     (Examples.http_handler 200 None)))
  = MediaMember TEXT.
Proof.
  destruct (file_results_get_text_media_type (Examples.http_handler 200 None)
              Examples.file_function) as (_ & _ & Hfile & _).
  apply (Hfile false); [reflexivity | discriminate].
Defined.

Lemma http_validation_accepts_exactly_witness :
  fst (HTTPRouteHandler_call Examples.file_function (Examples.http_handler 200 None))
  = Ok tt
  /\ exists e, fst (HTTPRouteHandler_call Examples.redirect_with_socket
                      (Examples.http_handler 302 None)) = Raise e.
Proof.
  destruct (http_validation_accepts_exactly (Examples.http_handler 200 None)
              Examples.file_function) as (Hiff & _).
  destruct (http_validation_accepts_exactly (Examples.http_handler 302 None)
              Examples.redirect_with_socket) as (_ & _ & _ & Hsocket).
  split.
  - apply Hiff. split; [discriminate|]. split; [intros is_file Hx; discriminate Hx|].
    split; vm_compute; intros Hin; inversion Hin.
  - apply Hsocket. vm_compute. left.
Defined.

Lemma asgi_validation_witness :
  fst (ASGIRouteHandler_call Examples.asgi_function
         (Examples.base_handler None None None)) = Ok tt.
Proof.
  destruct (asgi_validation (Examples.base_handler None None None)
              Examples.asgi_function) as (_ & Hiff & _).
  apply Hiff. split; [reflexivity|].
  repeat split; vm_compute; repeat constructor.
Defined.

Section FurtherResponseProperties.
Context {Guard Provide Any : Type} `{EqDecision Provide}.
Variable get_plugin_for_value :
  @Content Any -> list (@PluginProtocol Any) -> option (@PluginProtocol Any).

Local Abbreviation HTTPHandler := (@HTTPRouteHandler Guard Provide Any).
Local Abbreviation Globals := (Dict (@GlobalValue Any)).

(** ** What the resolvers leave alone *)

Lemma resolve_after_request_frame (h : HTTPHandler) :
  let h' := snd (resolve_after_request h) in
  base h' = base h /\ status_code h' = status_code h
  /\ media_type h' = media_type h /\ background_tasks h' = background_tasks h
  /\ http_ownership_layers h' = http_ownership_layers h
  /\ resolved_headers h' = resolved_headers h
  /\ resolved_response_class h' = resolved_response_class h.
Proof.
  unfold resolve_after_request.
  destruct (resolved_after_request h); cbn; repeat split.
Qed.

Lemma resolve_response_headers_frame (h : HTTPHandler) :
  let h' := snd (resolve_response_headers h) in
  base h' = base h /\ status_code h' = status_code h
  /\ media_type h' = media_type h /\ background_tasks h' = background_tasks h
  /\ http_ownership_layers h' = http_ownership_layers h
  /\ resolved_after_request h' = resolved_after_request h
  /\ resolved_response_class h' = resolved_response_class h.
Proof.
  unfold resolve_response_headers.
  destruct (resolved_headers h); cbn; repeat split.
Qed.


(** The response class depends on the class slot and on the layers only. *)
Lemma resolve_response_class_depends (h1 h2 : HTTPHandler) :
  resolved_response_class h1 = resolved_response_class h2 ->
  http_ownership_layers h1 = http_ownership_layers h2 ->
  fst (resolve_response_class h1) = fst (resolve_response_class h2).
Proof.
  intros Hslot Hlayers. unfold resolve_response_class. rewrite Hslot.
  destruct (resolved_response_class h2); cbn [fst]; [|reflexivity].
  change (http_ownership_layers (set_resolved_response_class (Resolved Response) h1))
    with (http_ownership_layers h1).
  change (http_ownership_layers (set_resolved_response_class (Resolved Response) h2))
    with (http_ownership_layers h2).
  now rewrite Hlayers.
Qed.

Lemma at_dispatch_frame (h : HTTPHandler) :
  base (handler_at_dispatch h) = base h
  /\ status_code (handler_at_dispatch h) = status_code h
  /\ media_type (handler_at_dispatch h) = media_type h
  /\ background_tasks (handler_at_dispatch h) = background_tasks h
  /\ http_ownership_layers (handler_at_dispatch h) = http_ownership_layers h
  /\ resolved_response_class (handler_at_dispatch h) = resolved_response_class h
  /\ resolved_after_request (handler_at_dispatch h)
     = Resolved (fst (resolve_after_request h))
  /\ resolved_headers (handler_at_dispatch h)
     = Resolved (fst (resolve_response_headers (snd (resolve_after_request h)))).
Proof.
  unfold handler_at_dispatch.
  destruct (resolve_response_headers_frame (snd (resolve_after_request h)))
    as (H1 & H2 & H3 & H4 & H5 & H6 & H7).
  destruct (resolve_after_request_frame h) as (G1 & G2 & G3 & G4 & G5 & G6 & G7).
  cbv zeta in *.
  repeat split; try congruence.
  - rewrite H6. apply resolve_after_request_stores_memo.
  - apply resolve_response_headers_stores_memo.
Qed.

(** ** Data that is neither a response nor a wrapper *)

(** X17.  For data that is no response and no wrapper, [to_response] makes
    an instance of the resolved response class with the resolved headers,
    the handler's status code, media type and background tasks, and the
    data, which a matching plugin converts ([to_dict] item by item for a
    list or tuple) and which is passed as it is when no plugin matches;
    the instance then goes through the after-request hook. *)
Theorem plain_data_response (h : HTTPHandler) (data : MaybeAwaitable Value)
    (content : Content) (plugins : list PluginProtocol) :
  await data = PlainData content ->
  fst (to_response get_plugin_for_value data plugins h)
  = run_after_request (fst (resolve_after_request h))
      (ResponseInstance (fst (resolve_response_class h)) (headers_at_dispatch h)
         (status_code h)
         (match get_plugin_for_value content plugins with
          | None => content
          | Some plugin =>
              match content with
              | Sequence items => Sequence (map (to_dict plugin) items)
              | Object obj => Object (to_dict plugin obj)
              end
          end)
         (media_str (media_type h)) (background_tasks h)).
Proof.
  intros Hdata. unfold to_response. rewrite to_response_under_unfold, Hdata.
  destruct (at_dispatch_frame h) as (_ & Hstatus & _ & Hbackground & Hlayers & Hclass & _).
  destruct (resolve_after_request_frame h) as (_ & _ & Hmedia & _).
  cbv zeta in Hmedia. rewrite Hmedia.
  unfold build_response, bind, get_self, lift, ret, convert_with_plugin.
  destruct (resolve_response_class (handler_at_dispatch h)) as [cls h3] eqn:Hcls.
  cbn [fst snd].
  assert (Hsame : cls = fst (resolve_response_class h)).
  { rewrite <- (resolve_response_class_depends (handler_at_dispatch h) h Hclass Hlayers).
    now rewrite Hcls. }
  now rewrite Hsame, Hstatus, Hbackground.
Qed.

(** ** The other wrappers *)

(** X18.  A file value becomes a file response with the handler's media
    type, the resolved headers and the file's own arguments, and without
    the handler's status code; a stream value becomes a streaming response
    with the status code, media type and headers.  Either then goes
    through the after-request hook. *)
Theorem file_and_stream_responses (h : HTTPHandler) (data : MaybeAwaitable Value)
    (plugins : list PluginProtocol) :
  (forall kwargs, await data = File kwargs ->
     fst (to_response get_plugin_for_value data plugins h)
     = run_after_request (fst (resolve_after_request h))
         (FileResponse (media_str (media_type h)) (headers_at_dispatch h) kwargs))
  /\ (forall iterator, await data = Stream iterator ->
        fst (to_response get_plugin_for_value data plugins h)
        = run_after_request (fst (resolve_after_request h))
            (StreamingResponse iterator (status_code h) (media_str (media_type h))
               (headers_at_dispatch h))).
Proof.
  destruct (at_dispatch_frame h) as (_ & Hstatus & _).
  destruct (resolve_after_request_frame h) as (_ & _ & Hmedia & _).
  cbv zeta in Hmedia.
  split; intros x Hdata; unfold to_response;
    rewrite to_response_under_unfold, Hdata, Hmedia;
    unfold build_response, bind, get_self, ret; cbn [fst]; now rewrite ?Hstatus.
Qed.

(** ** What [to_response] leaves in the handler *)









End FurtherResponseProperties.

Lemma plain_data_response_witness :
  fst (to_response Examples.first_plugin (Awaitable (PlainData (Sequence ["a"; "b"])))
         [Examples.wrapping_plugin] Examples.routed_handler)
  = Ok (ResponseInstance (ResponseSubclass "AppResponse")
          [("x-own", "own"); ("x-shared", "from_router"); ("x-app", "app")]
          200 (Sequence ["dict:a"; "dict:b"]) "application/json" (Some "task")).
Proof.
  rewrite (plain_data_response Examples.first_plugin Examples.routed_handler
             (Awaitable (PlainData (Sequence ["a"; "b"]))) (Sequence ["a"; "b"])
             [Examples.wrapping_plugin] eq_refl).
  reflexivity.
Defined.

Lemma file_and_stream_responses_witness :
  fst (to_response Examples.no_plugin (Plain (File "report.pdf")) []
         (Examples.http_handler 201 None))
  = Ok (FileResponse "application/json" [] "report.pdf")
  /\ fst (to_response Examples.no_plugin (Plain (Stream "chunks")) []
            (Examples.http_handler 201 None))
     = Ok (StreamingResponse "chunks" 201 "application/json" []).
Proof.
  split.
  - destruct (file_and_stream_responses Examples.no_plugin
                (Examples.http_handler 201 None) (Plain (File "report.pdf")) [])
      as (Hfile & _).
    rewrite (Hfile "report.pdf" eq_refl). reflexivity.
  - destruct (file_and_stream_responses Examples.no_plugin
                (Examples.http_handler 201 None) (Plain (Stream "chunks")) [])
      as (_ & Hstream).
    rewrite (Hstream "chunks" eq_refl). reflexivity.
Defined.

Lemma http_method_is_required_witness :
  HTTPRouteHandler_init (Guard:=string) (Provide:=string) id Examples.method_literals
    (Some (MethodList [])) None Examples.plain_arguments
  = Raise (ImproperlyConfiguredException "An http_method kwarg is required")
  /\ HTTPRouteHandler_init (Guard:=string) (Provide:=string) id Examples.method_literals
       (Some (Scalar (Str "OPTIONS"))) None Examples.plain_arguments
     = Raise (ValidationError "http_method")
  /\ HTTPRouteHandler_init (Guard:=string) (Provide:=string) id Examples.method_literals
       (Some (Scalar (Str EmptyString))) None Examples.plain_arguments
     = Raise (ValidationError "http_method")
  /\ exists h : @HTTPRouteHandler string string string,
       HTTPRouteHandler_init id Examples.method_literals
         (Some (MethodList [Str "HEAD"; Member GET])) None Examples.plain_arguments
       = Ok h.
Proof.
  assert (Hrefused : forall s,
            bool_decide (s ∈ ["GET"; "POST"; "PUT"; "PATCH"; "DELETE"; "HEAD"]) = false ->
            ~ Forall (admitted_method Examples.method_literals)
                (method_values (Some (Scalar (Str s))))).
  { intros s Hs Hall. apply bool_decide_eq_false_1 in Hs. apply Hs.
    cbn [method_values] in Hall. inversion Hall as [|? ? Hadmitted _]; subst.
    destruct Hadmitted as [[m ->]|Hin].
    - destruct m; cbn [HttpMethod_value]; repeat constructor.
    - unfold Examples.method_literals in Hin.
      repeat (apply elem_of_cons in Hin as [->|Hin]);
        [..|now apply elem_of_nil in Hin]; repeat constructor. }
  split; [|split; [|split]].
  - apply (http_method_is_required (Guard:=string) (Provide:=string) id
             Examples.method_literals (Some (MethodList [])) None
             Examples.plain_arguments method_literals_not_empty).
    right. reflexivity.
  - apply (http_method_is_required (Guard:=string) (Provide:=string) id
             Examples.method_literals (Some (Scalar (Str "OPTIONS"))) None
             Examples.plain_arguments method_literals_not_empty).
    now apply Hrefused.
  - apply (http_method_is_required (Guard:=string) (Provide:=string) id
             Examples.method_literals (Some (Scalar (Str EmptyString))) None
             Examples.plain_arguments method_literals_not_empty).
    now apply Hrefused.
  - apply (http_method_is_required (Guard:=string) (Provide:=string) id
             Examples.method_literals (Some (MethodList [Str "HEAD"; Member GET])) None
             Examples.plain_arguments method_literals_not_empty).
    split; [discriminate|].
    constructor; [|constructor; [exact I | constructor]].
    right. vm_compute. do 5 right. left.
Defined.
